(** * The Reddit cog of the bot: a shallow embedding of [bot/cogs/reddit.py]

    The cog keeps an OAuth2 token pair, polls a list of subreddits for new
    posts with a per-subreddit watermark ([last_ids]), and posts a weekly
    digest whose messages it keeps pinned.  The coroutines of the class are
    embedded as computations in a state-and-exception monad over the fields
    of the cog and an explicit model of the outside world (the HTTP replies,
    the clock, the channel's pins and the trace of observable actions). *)

From Stdlib Require Import ZArith String Ascii Lia Sorted.
From stdpp Require Import base option list gmap strings pretty.

Local Open Scope string_scope.

(** ** Python's [int(s, 36)]

    Restricted to ASCII text, which is all a platform id ever contains:
    optional surrounding whitespace (tab, line feed, vertical tab, form
    feed, carriage return and space), an optional sign, then digits [0-9],
    [a-z] or [A-Z], where single underscores may separate digits.  [None]
    stands for the [ValueError] that [int] raises. *)

Definition is_space (c : ascii) : bool :=
  let n := N_of_ascii c in
  ((9 <=? n) && (n <=? 13) || (n =? 32))%N.

Definition digit36 (c : ascii) : option Z :=
  let n := Z.of_N (N_of_ascii c) in
  if ((48 <=? n) && (n <=? 57))%Z then Some (n - 48)%Z
  else if ((97 <=? n) && (n <=? 122))%Z then Some (n - 87)%Z
  else if ((65 <=? n) && (n <=? 90))%Z then Some (n - 55)%Z
  else None.

Fixpoint lstrip (s : string) : string :=
  match s with
  | String c s' => if is_space c then lstrip s' else s
  | EmptyString => EmptyString
  end.

(** [rstrip] keeps a character when it is not a space or when something that
    is kept follows it. *)
Fixpoint rstrip (s : string) : string :=
  match s with
  | String c s' =>
      match rstrip s' with
      | EmptyString => if is_space c then EmptyString else String c EmptyString
      | r => String c r
      end
  | EmptyString => EmptyString
  end.

Definition strip (s : string) : string := rstrip (lstrip s).

(** The digits that follow a first digit whose value is accumulated in [acc]. *)
Fixpoint int36_digits (acc : Z) (s : string) : option Z :=
  match s with
  | EmptyString => Some acc
  | String c s' =>
      if Ascii.eqb c "_" then
        match s' with
        | String d s'' =>
            match digit36 d with
            | Some v => int36_digits (acc * 36 + v) s''
            | None => None
            end
        | EmptyString => None
        end
      else
        match digit36 c with
        | Some v => int36_digits (acc * 36 + v) s'
        | None => None
        end
  end.

Definition int36_unsigned (s : string) : option Z :=
  match s with
  | String d s' =>
      match digit36 d with
      | Some v => int36_digits v s'
      | None => None
      end
  | EmptyString => None
  end.

Definition int36 (s : string) : option Z :=
  match strip s with
  | String c s' =>
      if Ascii.eqb c "-" then Z.opp <$> int36_unsigned s'
      else if Ascii.eqb c "+" then int36_unsigned s'
      else int36_unsigned (String c s')
  | EmptyString => None
  end.

Example int36_2 : int36 "2" = Some 2%Z.
Proof. reflexivity. Qed.
Example int36_zz : int36 "  Zz " = Some 1295%Z.
Proof. reflexivity. Qed.
Example int36_neg : int36 "-1_0" = Some (-36)%Z.
Proof. reflexivity. Qed.
Example int36_bad : int36 "1__0" = None /\ int36 "" = None /\ int36 "a b" = None.
Proof. repeat split. Qed.
Example int36_separator :
  int36 (String (ascii_of_nat 28) "7") = None
  /\ int36 (String (ascii_of_nat 9) "7") = Some 7%Z.
Proof. split; reflexivity. Qed.

(** ** Python's [str.lower], on ASCII letters *)

Definition lower_ascii (c : ascii) : ascii :=
  let n := N_of_ascii c in
  if ((65 <=? n) && (n <=? 90))%N then ascii_of_N (n + 32) else c.

Fixpoint lower (s : string) : string :=
  match s with
  | String c s' => String (lower_ascii c) (lower s')
  | EmptyString => EmptyString
  end.

Example lower_python : lower "r/Python" = "r/python".
Proof. reflexivity. Qed.

(** ** Python list slicing [l[:k]] *)

Definition slice_to {A} (k : Z) (l : list A) : list A :=
  if (0 <=? k)%Z then take (Z.to_nat k) l
  else take (Z.to_nat (Z.of_nat (length l) + k)) l.

(** ** Data exchanged with the platform and with the chat service *)

(** One child of a listing: the fields of [post["data"]] that the cog reads. *)
Record Post := {
  id : string;            (* base-36 ordinal *)
  title : string;
  selftext : string;
  permalink : string;
  author : string;
  ups : Z;
  num_comments : Z
}.

Record BasicAuth := { login : string; password : string }.

(** The headers that the cog keeps in [self.headers] are built from
    strings.  The header dictionaries it writes out for the token requests
    may hold any object as a value. *)
Definition Headers := list (string * string).

Inductive HeaderValue :=
| HStr (s : string)
| HAuth (a : BasicAuth).

Definition RequestHeaders := list (string * HeaderValue).

(** The decoded JSON document of a reply, as far as the cog looks into it:
    - a listing, [{"data": {"children": [...]}}], of posts that carry all the
      fields the cog reads;
    - an object without a "data" key, with or without the token fields;
    - an object whose "data" is not an object;
    - a document that is no object at all (null, a number, a string, a list);
    - a body that is no JSON.
    Listings whose "children" is not a list of such posts are not modelled. *)
Inductive Body :=
| Listing (children : list Post)
| Tokens (access : option string) (refresh : option string)
| BadData
| NotAnObject
| Undecodable.

Record Response := {
  status : Z;
  content_type : string;
  content_length : option string;     (* the "content-length" header *)
  body : Body
}.

Inductive Colour := red | blurple.

Record Embed := {
  embed_title : option string;
  embed_url : option string;
  embed_description : option string;
  embed_footer : option string;
  embed_colour : option Colour
}.

Definition Embed_new : Embed :=
  {| embed_title := None; embed_url := None; embed_description := None;
     embed_footer := None; embed_colour := None |}.

Record Channel := { channel_id : Z }.

Record Message := {
  message_id : nat;
  message_content : option string;
  message_embed : Embed
}.

(** Everything the cog does that can be observed from outside. *)
Inductive Event :=
| HttpPost (url : string) (hdrs : RequestHeaders) (auth : option BasicAuth)
           (data : list (string * string))
| HttpGet (url : string) (hdrs : Headers) (params : list (string * string))
| HttpHead (url : string) (hdrs : Headers)
| Sleep (microseconds : Z)
| Typing (c : Channel)
| Send (c : Channel) (m : Message)
| Pins (c : Channel)
| Unpin (m : Message)
| Pin (m : Message)
| RemoveCog (name : string).

Inductive exn :=
| ValueError | IndexError | KeyError | AttributeError | OverflowError
| TypeError | ContentTypeError | JSONDecodeError.

Inductive outcome (A : Type) :=
| Returns (a : A)
| Raises (e : exn).
Arguments Returns {A} a.
Arguments Raises {A} e.

(** The three background coroutines and what the event loop knows of each:
    not created, alive after [n] completed iterations, or ended by an
    exception. *)
Inductive Task := RefreshTask | NewPostsTask | TopWeeklyTask.

Inductive TaskStatus :=
| NotCreated
| Alive (iterations : nat)
| Failed (e : exn).

Record Loop := {
  refresh_status : TaskStatus;
  new_posts_status : TaskStatus;
  top_weekly_status : TaskStatus
}.

(** ** The state: the fields of the cog, and the world around it *)

Record Cog := {
  reddit_channel : option Channel;
  prev_lengths : gmap string string;
  last_ids : gmap string Z;
  new_posts_task : option Task;
  top_weekly_posts_task : option Task;
  (* attributes that [__init__] does not create: *)
  client_auth : option BasicAuth;
  access_token : option string;
  refresh_token : option string;
  headers : option Headers
}.

(** [Reddit.__init__] *)
Definition Cog_init : Cog :=
  {| reddit_channel := None; prev_lengths := ∅; last_ids := ∅;
     new_posts_task := None; top_weekly_posts_task := None;
     client_auth := None; access_token := None; refresh_token := None;
     headers := None |}.

Record World := {
  net : nat -> Response;        (* the reply to the n-th HTTP request *)
  requests : nat;               (* HTTP requests issued so far *)
  dice : nat -> nat;            (* the n-th random draw *)
  rolls : nat;
  clock : Z;                    (* microseconds since 0001-01-01T00:00:00 UTC *)
  trace : list Event;           (* oldest first *)
  pinned : list Message;        (* the channel's pins, newest first *)
  sent : nat;                   (* messages sent so far *)
  channel_reply : option Channel;   (* what [bot.fetch_channel] yields *)
  loop : Loop
}.

Record State := { self : Cog; world : World }.

Definition set_reddit_channel (v : option Channel) (c : Cog) : Cog :=
  {| reddit_channel := v; prev_lengths := prev_lengths c; last_ids := last_ids c;
     new_posts_task := new_posts_task c;
     top_weekly_posts_task := top_weekly_posts_task c;
     client_auth := client_auth c; access_token := access_token c;
     refresh_token := refresh_token c; headers := headers c |}.

Definition set_prev_lengths (v : gmap string string) (c : Cog) : Cog :=
  {| reddit_channel := reddit_channel c; prev_lengths := v; last_ids := last_ids c;
     new_posts_task := new_posts_task c;
     top_weekly_posts_task := top_weekly_posts_task c;
     client_auth := client_auth c; access_token := access_token c;
     refresh_token := refresh_token c; headers := headers c |}.

Definition set_last_ids (v : gmap string Z) (c : Cog) : Cog :=
  {| reddit_channel := reddit_channel c; prev_lengths := prev_lengths c;
     last_ids := v; new_posts_task := new_posts_task c;
     top_weekly_posts_task := top_weekly_posts_task c;
     client_auth := client_auth c; access_token := access_token c;
     refresh_token := refresh_token c; headers := headers c |}.

Definition set_new_posts_task (v : option Task) (c : Cog) : Cog :=
  {| reddit_channel := reddit_channel c; prev_lengths := prev_lengths c;
     last_ids := last_ids c; new_posts_task := v;
     top_weekly_posts_task := top_weekly_posts_task c;
     client_auth := client_auth c; access_token := access_token c;
     refresh_token := refresh_token c; headers := headers c |}.

Definition set_top_weekly_posts_task (v : option Task) (c : Cog) : Cog :=
  {| reddit_channel := reddit_channel c; prev_lengths := prev_lengths c;
     last_ids := last_ids c; new_posts_task := new_posts_task c;
     top_weekly_posts_task := v;
     client_auth := client_auth c; access_token := access_token c;
     refresh_token := refresh_token c; headers := headers c |}.

Definition set_client_auth (v : option BasicAuth) (c : Cog) : Cog :=
  {| reddit_channel := reddit_channel c; prev_lengths := prev_lengths c;
     last_ids := last_ids c; new_posts_task := new_posts_task c;
     top_weekly_posts_task := top_weekly_posts_task c;
     client_auth := v; access_token := access_token c;
     refresh_token := refresh_token c; headers := headers c |}.

Definition set_access_token (v : option string) (c : Cog) : Cog :=
  {| reddit_channel := reddit_channel c; prev_lengths := prev_lengths c;
     last_ids := last_ids c; new_posts_task := new_posts_task c;
     top_weekly_posts_task := top_weekly_posts_task c;
     client_auth := client_auth c; access_token := v;
     refresh_token := refresh_token c; headers := headers c |}.

Definition set_refresh_token (v : option string) (c : Cog) : Cog :=
  {| reddit_channel := reddit_channel c; prev_lengths := prev_lengths c;
     last_ids := last_ids c; new_posts_task := new_posts_task c;
     top_weekly_posts_task := top_weekly_posts_task c;
     client_auth := client_auth c; access_token := access_token c;
     refresh_token := v; headers := headers c |}.

Definition set_headers (v : option Headers) (c : Cog) : Cog :=
  {| reddit_channel := reddit_channel c; prev_lengths := prev_lengths c;
     last_ids := last_ids c; new_posts_task := new_posts_task c;
     top_weekly_posts_task := top_weekly_posts_task c;
     client_auth := client_auth c; access_token := access_token c;
     refresh_token := refresh_token c; headers := v |}.

Definition set_requests (v : nat) (w : World) : World :=
  {| net := net w; requests := v; dice := dice w; rolls := rolls w;
     clock := clock w; trace := trace w; pinned := pinned w; sent := sent w;
     channel_reply := channel_reply w; loop := loop w |}.

Definition set_rolls (v : nat) (w : World) : World :=
  {| net := net w; requests := requests w; dice := dice w; rolls := v;
     clock := clock w; trace := trace w; pinned := pinned w; sent := sent w;
     channel_reply := channel_reply w; loop := loop w |}.

Definition set_clock (v : Z) (w : World) : World :=
  {| net := net w; requests := requests w; dice := dice w; rolls := rolls w;
     clock := v; trace := trace w; pinned := pinned w; sent := sent w;
     channel_reply := channel_reply w; loop := loop w |}.

Definition set_trace (v : list Event) (w : World) : World :=
  {| net := net w; requests := requests w; dice := dice w; rolls := rolls w;
     clock := clock w; trace := v; pinned := pinned w; sent := sent w;
     channel_reply := channel_reply w; loop := loop w |}.

Definition set_pinned (v : list Message) (w : World) : World :=
  {| net := net w; requests := requests w; dice := dice w; rolls := rolls w;
     clock := clock w; trace := trace w; pinned := v; sent := sent w;
     channel_reply := channel_reply w; loop := loop w |}.

Definition set_sent (v : nat) (w : World) : World :=
  {| net := net w; requests := requests w; dice := dice w; rolls := rolls w;
     clock := clock w; trace := trace w; pinned := pinned w; sent := v;
     channel_reply := channel_reply w; loop := loop w |}.

Definition set_loop (v : Loop) (w : World) : World :=
  {| net := net w; requests := requests w; dice := dice w; rolls := rolls w;
     clock := clock w; trace := trace w; pinned := pinned w; sent := sent w;
     channel_reply := channel_reply w; loop := v |}.

(** ** The monad of coroutine bodies

    A computation takes the state and gives the state it leaves behind
    together with a returned value or a raised exception; what was assigned
    before an exception stays assigned. *)

Definition M (A : Type) : Type := State -> State * outcome A.

Definition ret {A} (a : A) : M A := fun s => (s, Returns a).

Definition raise {A} (e : exn) : M A := fun s => (s, Raises e).

Definition bind {A B} (m : M A) (k : A -> M B) : M B :=
  fun s =>
    match m s with
    | (s', Returns a) => k a s'
    | (s', Raises e) => (s', Raises e)
    end.

Declare Scope py_scope.
Delimit Scope py_scope with py.
Notation "'do' x <- c ; k" := (bind c (fun x => k))
  (at level 10, x name, c at level 100, k at level 200) : py_scope.
Notation "'run' c ; k" := (bind c (fun _ => k))
  (at level 10, c at level 100, k at level 200) : py_scope.
Local Open Scope py_scope.

Definition get_self : M Cog := fun s => (s, Returns (self s)).
Definition get_world : M World := fun s => (s, Returns (world s)).
Definition modify_self (f : Cog -> Cog) : M unit :=
  fun s => ({| self := f (self s); world := world s |}, Returns tt).
Definition modify_world (f : World -> World) : M unit :=
  fun s => ({| self := self s; world := f (world s) |}, Returns tt).

(** Reading an attribute of [self] that may not have been assigned yet. *)
Definition attribute {A} (field : Cog -> option A) : M A :=
  do c <- get_self;
  match field c with
  | Some v => ret v
  | None => raise AttributeError
  end.

Definition emit (e : Event) : M unit :=
  modify_world (fun w => set_trace (trace w ++ [e]) w).

(** A [for] loop over a list whose body may raise. *)
Fixpoint for_each {A} (l : list A) (body : A -> M unit) : M unit :=
  match l with
  | [] => ret tt
  | x :: l' => run body x; for_each l' body
  end.

(** ** Primitive actions on the world *)

(** Every HTTP call is logged, consumes the next reply and takes no time. *)
Definition next_response : M Response :=
  do w <- get_world;
  run modify_world (set_requests (S (requests w)));
  ret (net w (requests w)).

Definition is_str (v : HeaderValue) : bool :=
  match v with
  | HStr _ => true
  | HAuth _ => false
  end.

(** The session refuses a header whose value is not a string with a
    [TypeError], before anything is sent. *)
Definition http_post (url : string) (hdrs : RequestHeaders)
    (auth : option BasicAuth) (data : list (string * string)) : M Response :=
  if forallb (fun kv => is_str (snd kv)) hdrs then
    run emit (HttpPost url hdrs auth data); next_response
  else raise TypeError.

Definition http_get (url : string) (hdrs : Headers)
    (params : list (string * string)) : M Response :=
  run emit (HttpGet url hdrs params); next_response.

Definition http_head (url : string) (hdrs : Headers) : M Response :=
  run emit (HttpHead url hdrs); next_response.

(** [await response.json()]: a content type other than JSON or a body that
    is no JSON document raises. *)
Definition json (r : Response) : M Body :=
  if negb (content_type r =? "application/json") then raise ContentTypeError
  else match body r with
       | Undecodable => raise JSONDecodeError
       | b => ret b
       end.

(** [content["data"]["children"]], [content["access_token"]] and
    [content["refresh_token"]]: a missing key raises [KeyError], a
    subscript on something that is no object raises [TypeError]. *)
Definition children_of (b : Body) : M (list Post) :=
  match b with
  | Listing posts => ret posts
  | Tokens _ _ => raise KeyError
  | BadData | NotAnObject => raise TypeError
  | Undecodable => raise JSONDecodeError
  end.

Definition access_token_of (b : Body) : M string :=
  match b with
  | Tokens (Some a) _ => ret a
  | Tokens None _ | Listing _ | BadData => raise KeyError
  | NotAnObject => raise TypeError
  | Undecodable => raise JSONDecodeError
  end.

Definition refresh_token_of (b : Body) : M string :=
  match b with
  | Tokens _ (Some r) => ret r
  | Tokens _ None | Listing _ | BadData => raise KeyError
  | NotAnObject => raise TypeError
  | Undecodable => raise JSONDecodeError
  end.

(** [await asyncio.sleep(d)], with [d] in microseconds. *)
Definition sleep (d : Z) : M unit :=
  run emit (Sleep d);
  modify_world (fun w => set_clock (clock w + d)%Z w).

Definition seconds (n : Z) : Z := (n * 1000000)%Z.

(** [random.choice(l)] *)
Definition random_choice {A} (l : list A) : M A :=
  do w <- get_world;
  run modify_world (set_rolls (S (rolls w)));
  match l !! (dice w (rolls w) mod length l) with
  | Some x => ret x
  | None => raise IndexError
  end.

(** [await channel.send(content=..., embed=...)]: the message gets the next
    free id. *)
Definition channel_send (c : Channel) (content : option string) (e : Embed)
    : M Message :=
  do w <- get_world;
  let m := {| message_id := sent w; message_content := content;
              message_embed := e |} in
  run modify_world (set_sent (S (sent w)));
  run emit (Send c m);
  ret m.

Definition channel_pins (c : Channel) : M (list Message) :=
  run emit (Pins c);
  do w <- get_world;
  ret (pinned w).

Definition same_message (m m' : Message) : bool :=
  Nat.eqb (message_id m) (message_id m').

Definition message_unpin (m : Message) : M unit :=
  run emit (Unpin m);
  modify_world (fun w =>
    set_pinned (filter (fun m' => same_message m m' = false) (pinned w)) w).

Definition message_pin (m : Message) : M unit :=
  run emit (Pin m);
  modify_world (fun w => set_pinned (m :: pinned w) w).

Definition status_ok (r : Response) : bool :=
  (status r =? 200)%Z && (content_type r =? "application/json").

(** ** [datetime], as far as the weekly timer uses it

    The calendar date is kept as its proleptic Gregorian ordinal
    ([date.toordinal()], day 1 being 0001-01-01, a Monday). *)

Record datetime := {
  toordinal : Z;
  hour : Z;
  minute : Z;
  second : Z;
  microsecond : Z
}.

Definition MAXORDINAL : Z := 3652059.        (* 9999-12-31 *)
Definition DAY : Z := 86400000000.           (* microseconds *)

Definition is_leap (y : Z) : bool :=
  ((y mod 4 =? 0) && (negb (y mod 100 =? 0) || (y mod 400 =? 0)))%Z.

Definition days_before_year (y : Z) : Z :=
  let p := (y - 1)%Z in (p * 365 + p / 4 - p / 100 + p / 400)%Z.

Definition days_before_month (y m : Z) : Z :=
  (nth (Z.to_nat m) [0; 0; 31; 59; 90; 120; 151; 181; 212; 243; 273; 304; 334] 0
   + (if (2 <? m) && is_leap y then 1 else 0))%Z.

Definition ymd2ord (y m d : Z) : Z :=
  (days_before_year y + days_before_month y m + d)%Z.

(** [datetime.weekday()]: Monday is 0. *)
Definition weekday (d : datetime) : Z := ((toordinal d + 6) mod 7)%Z.

(** [d + timedelta(days=n)] *)
Definition add_days (d : datetime) (n : Z) : outcome datetime :=
  let o := (toordinal d + n)%Z in
  if ((1 <=? o) && (o <=? MAXORDINAL))%Z then
    Returns {| toordinal := o; hour := hour d; minute := minute d;
               second := second d; microsecond := microsecond d |}
  else Raises OverflowError.

(** [d.replace(hour=h, minute=m, second=s)] *)
Definition replace_hms (d : datetime) (h m s : Z) : datetime :=
  {| toordinal := toordinal d; hour := h; minute := m; second := s;
     microsecond := microsecond d |}.

(** The instant of a [datetime], in microseconds since day 1, 00:00. *)
Definition instant (d : datetime) : Z :=
  ((toordinal d - 1) * DAY
   + ((hour d * 60 + minute d) * 60 + second d) * 1000000 + microsecond d)%Z.

(** [(a - b)] as a [timedelta], in microseconds; [total_seconds()] is this
    number divided by [10**6]. *)
Definition datetime_sub (a b : datetime) : Z := (instant a - instant b)%Z.

Definition datetime_of_instant (t : Z) : datetime :=
  let tod := (t mod DAY)%Z in
  {| toordinal := (t / DAY + 1)%Z;
     hour := (tod / 3600000000)%Z;
     minute := (tod / 60000000 mod 60)%Z;
     second := (tod / 1000000 mod 60)%Z;
     microsecond := (tod mod 1000000)%Z |}.

(** A [datetime] whose time-of-day fields are within their ranges. *)
Definition valid_datetime (d : datetime) : Prop :=
  (1 <= toordinal d <= MAXORDINAL /\ 0 <= hour d < 24 /\ 0 <= minute d < 60
   /\ 0 <= second d < 60 /\ 0 <= microsecond d < 1000000)%Z.

(** The amount of time until midnight next Monday, as the weekly loop
    computes it, in microseconds. *)
Definition until_monday (now : datetime) : outcome Z :=
  match add_days now (7 - weekday now) with
  | Returns monday =>
      let monday := replace_hms monday 0 0 0 in
      Returns (datetime_sub monday now)
  | Raises e => Raises e
  end.

(** [datetime.utcnow()] *)
Definition utcnow : M datetime :=
  do w <- get_world; ret (datetime_of_instant (clock w)).

Definition lift {A} (o : outcome A) : M A := fun s => (s, o).

(** ** The class [Reddit] *)

Definition USER_AGENT : string :=
  "docker-python3:Discord Bot of PythonDiscord (https://pythondiscord.com/):v?.?.? (by /u/PythonDiscord)".
Definition URL : string := "https://www.reddit.com".
Definition OAUTH_URL : string := "https://oauth.reddit.com".
Definition MAX_FETCH_RETRIES : nat := 3.

Definition bearer_headers (token : string) : Headers :=
  [("Authorization", "bearer " +:+ token); ("User-Agent", USER_AGENT)].

(** What [bot.constants] supplies to this module: the [Reddit]
    configuration here, the error replies as a variable below. *)
Record RedditConfigT := {
  client_id : string;
  secret : string;
  subreddits : list string;
  request_delay : Z       (* seconds *)
}.

Section Reddit.

Variable RedditConfig : RedditConfigT.
Variable ERROR_REPLIES : list string.

(** [textwrap.shorten(text, width=w, placeholder="...")] of the Python
    library. *)
Variable shorten : string -> nat -> string.

(** [refresh_access_token], the body of the [tasks.loop]. *)
Definition refresh_access_token : M unit :=
  do auth <- attribute client_auth;
  let hdrs := [("Authorization", HAuth auth)] in
  do token <- attribute refresh_token;
  let data := [("grant_type", "refresh_token"); ("refresh_token", token)] in
  do response <- http_post (URL +:+ "/api/v1/access_token") hdrs None data;
  do content <- json response;
  do access <- access_token_of content;
  run modify_self (set_access_token (Some access));
  modify_self (set_headers (Some (bearer_headers access))).

(** [get_tokens], run once before the loop. *)
Definition get_tokens : M unit :=
  let hdrs := [("User-Agent", HStr USER_AGENT)] in
  let data := [("grant_type", "client_credentials"); ("duration", "permanent")] in
  let auth := {| login := client_id RedditConfig;
                 password := secret RedditConfig |} in
  run modify_self (set_client_auth (Some auth));
  do response <- http_post (URL +:+ "/api/v1/access_token") hdrs (Some auth) data;
  if status_ok response then
    do content <- json response;
    do access <- access_token_of content;
    run modify_self (set_access_token (Some access));
    do refresh <- refresh_token_of content;
    run modify_self (set_refresh_token (Some refresh));
    modify_self (set_headers (Some (bearer_headers access)))
  else
    emit (RemoveCog "Reddit").

(** [fetch_posts]: the [for _ in range(MAX_FETCH_RETRIES)] loop, with the
    number of attempts left. *)
Fixpoint fetch_attempts (url : string) (amount : Z)
    (params : list (string * string)) (attempts : nat) : M (list Post) :=
  match attempts with
  | O => ret []
  | S attempts' =>
      do hdrs <- attribute headers;
      do response <- http_get url hdrs params;
      if status_ok response then
        do content <- json response;
        do posts <- children_of content;
        ret (slice_to amount posts)
      else
        run sleep (seconds 3);
        fetch_attempts url amount params attempts'
  end.

Definition fetch_posts (route : string) (amount : Z)
    (params : list (string * string)) : M (list Post) :=
  if negb ((amount <=? 25)%Z && (0 <? amount)%Z) then raise ValueError
  else
    let url := OAUTH_URL +:+ "/" +:+ route in
    fetch_attempts url amount params MAX_FETCH_RETRIES.

(** The dictionary [embed_data] that the poller builds for a new post. *)
Record EmbedData := {
  data_title : string;
  data_text : string;
  data_url : string;
  data_author : string
}.

Definition embed_data (post : Post) : EmbedData :=
  {| data_title := shorten (title post) 64;
     data_text := shorten (selftext post) 128;
     data_url := URL +:+ permalink post;
     data_author := author post |}.

Definition nl : string := String (ascii_of_nat 10) EmptyString.

(** One round of the [for post in posts] loop of [send_top_posts]: the
    text appended to [embed.description]. *)
Definition top_post_entry (subreddit : string) (post : Post) : string :=
  let text := selftext post in
  let text := if text =? "" then text else shorten text 128 +:+ nl in
  let title := shorten (title post) 64 in
  let link := URL +:+ permalink post in
  "[**" +:+ title +:+ "**](" +:+ link +:+ ")" +:+ nl
  +:+ text
  +:+ "| " +:+ pretty (ups post) +:+ " upvotes | "
  +:+ pretty (num_comments post) +:+ " comments | u/" +:+ author post
  +:+ " | " +:+ subreddit +:+ " |" +:+ nl +:+ nl.

Definition send_top_posts (channel : Channel) (subreddit : string)
    (content : option string) (time : string) : M Message :=
  run emit (Typing channel);
  do posts <- fetch_posts (subreddit +:+ "/top") 5 [("t", time)];
  match posts with
  | [] =>
      do reply <- random_choice ERROR_REPLIES;
      channel_send channel None
        {| embed_title := Some reply; embed_url := None;
           embed_description := Some
             ("Sorry! We couldn't find any posts from that subreddit. "
              +:+ "If this problem persists, please let us know.");
           embed_footer := None; embed_colour := Some red |}
  | _ =>
      let description :=
        fold_left (fun d post => d +:+ top_post_entry subreddit post) posts "" in
      channel_send channel content
        {| embed_title := None; embed_url := None;
           embed_description := Some description;
           embed_footer := None; embed_colour := Some blurple |}
  end.

(** *** [poll_new_posts] *)

(** The [for post in posts] scan: posts are collected until the first one
    whose ordinal is not above the watermark. *)
Fixpoint scan_new_posts (last_id : Z) (posts : list Post) : M (list EmbedData) :=
  match posts with
  | [] => ret []
  | post :: posts' =>
      match int36 (id post) with
      | None => raise ValueError
      | Some int_id =>
          if (int_id <=? last_id)%Z then ret []
          else
            do new_posts <- scan_new_posts last_id posts';
            ret (embed_data post :: new_posts)
      end
  end.

Definition new_post_embed (subreddit : string) (data : EmbedData) : Embed :=
  {| embed_title := Some (data_title data);
     embed_url := Some (data_url data);
     embed_description := Some (data_text data);
     embed_footer :=
       Some ("Posted by u/" +:+ data_author data +:+ " in " +:+ subreddit);
     embed_colour := Some blurple |}.

(** What the loop body does with the page it fetched. *)
Definition relay_new_posts (subreddit : string) (posts : list Post) : M unit :=
  do c <- get_self;
  do new_posts <-
    match last_ids c !! subreddit with
    | Some last_id => scan_new_posts last_id posts
    | None => ret []
    end;
  do top <- match posts with
            | post :: _ => ret post
            | [] => raise IndexError
            end;
  do top_id <- match int36 (id top) with
               | Some n => ret n
               | None => raise ValueError
               end;
  run modify_self (fun c => set_last_ids (<[subreddit := top_id]> (last_ids c)) c);
  run for_each new_posts (fun data =>
        do channel <- attribute reddit_channel;
        do _ <- channel_send channel None (new_post_embed subreddit data);
        ret tt);
  do _ <- attribute reddit_channel;      (* the id in the log line *)
  ret tt.

(** The first half of the loop body: the HEAD probe and, when the length
    changed, the fetch.  [None] is the [continue]. *)
Definition probe_and_fetch (subreddit : string) : M (option (list Post)) :=
  do hdrs <- attribute headers;
  do head_response <-
    http_head (OAUTH_URL +:+ "/" +:+ subreddit +:+ "/new.rss") hdrs;
  do content_len <- match content_length head_response with
               | Some l => ret l
               | None => raise KeyError
               end;
  do c <- get_self;
  if match prev_lengths c !! subreddit with
     | Some previous => content_len =? previous
     | None => false
     end
  then ret None
  else
    run modify_self (fun c =>
          set_prev_lengths (<[subreddit := content_len]> (prev_lengths c)) c);
    do posts <- fetch_posts (subreddit +:+ "/new") 25 [];
    ret (Some posts).

Definition poll_subreddit (subreddit : string) : M unit :=
  do fetched <- probe_and_fetch subreddit;
  match fetched with
  | Some posts => relay_new_posts subreddit posts
  | None => ret tt
  end.

(** One round of the [while True] loop. *)
Definition poll_new_posts_cycle : M unit :=
  run sleep (seconds (request_delay RedditConfig));
  for_each (subreddits RedditConfig) poll_subreddit.

Fixpoint poll_new_posts (cycles : nat) : M unit :=
  match cycles with
  | O => ret tt
  | S cycles' => run poll_new_posts_cycle; poll_new_posts cycles'
  end.

(** *** [poll_top_weekly_posts] *)

(** [while len(pins) >= 5: await pins[-1].unpin(); del pins[-1]], unrolled
    at most [rounds] times. *)
Fixpoint unpin_oldest (rounds : nat) (pins : list Message) : M unit :=
  match rounds with
  | O => ret tt
  | S rounds' =>
      if (5 <=? length pins)%nat then
        match last pins with
        | Some m => run message_unpin m; unpin_oldest rounds' (removelast pins)
        | None => raise IndexError
        end
      else ret tt
  end.

(** The [if subreddit.lower() == "r/python"] block.  The loop shortens
    [pins] by one each round, so [length pins] rounds are never used up. *)
Definition maintain_pins (message : Message) : M unit :=
  do channel <- attribute reddit_channel;
  do pins <- channel_pins channel;
  run unpin_oldest (length pins) pins;
  message_pin message.

Definition weekly_subreddit (subreddit : string) : M unit :=
  do channel <- attribute reddit_channel;
  do message <-
    send_top_posts channel subreddit
      (Some ("This week's top " +:+ subreddit +:+ " posts have arrived!")) "week";
  if lower subreddit =? "r/python" then maintain_pins message else ret tt.

Definition poll_top_weekly_cycle : M unit :=
  do now <- utcnow;
  do delay <- lift (until_monday now);
  run sleep delay;
  for_each (subreddits RedditConfig) weekly_subreddit.

Fixpoint poll_top_weekly_posts (cycles : nat) : M unit :=
  match cycles with
  | O => ret tt
  | S cycles' => run poll_top_weekly_cycle; poll_top_weekly_posts cycles'
  end.

(** *** The event loop

    The three coroutines run as tasks of one cooperative loop.  A schedule
    names the task that runs its next iteration; a task that ends in an
    exception is finished for good, the others go on.  Iterations do not
    interleave, and every pause of every task moves the one clock forward. *)

Definition task_status (t : Task) (l : Loop) : TaskStatus :=
  match t with
  | RefreshTask => refresh_status l
  | NewPostsTask => new_posts_status l
  | TopWeeklyTask => top_weekly_status l
  end.

Definition set_task_status (t : Task) (st : TaskStatus) (l : Loop) : Loop :=
  match t with
  | RefreshTask =>
      {| refresh_status := st; new_posts_status := new_posts_status l;
         top_weekly_status := top_weekly_status l |}
  | NewPostsTask =>
      {| refresh_status := refresh_status l; new_posts_status := st;
         top_weekly_status := top_weekly_status l |}
  | TopWeeklyTask =>
      {| refresh_status := refresh_status l; new_posts_status := new_posts_status l;
         top_weekly_status := st |}
  end.

Definition create_task (t : Task) : M unit :=
  modify_world (fun w => set_loop (set_task_status t (Alive 0) (loop w)) w).

(** The refresh task is a [tasks.loop(hours=0.99)]: [get_tokens] goes
    first, then the body and a pause of 3564 seconds, again and again. *)
Definition iteration (t : Task) (n : nat) : M unit :=
  match t with
  | RefreshTask =>
      match n with
      | O => get_tokens
      | S _ => run refresh_access_token; sleep (seconds 3564)
      end
  | NewPostsTask => poll_new_posts_cycle
  | TopWeeklyTask => poll_top_weekly_cycle
  end.

Definition finish (t : Task) (st : TaskStatus) (s : State) : State :=
  {| self := self s;
     world := set_loop (set_task_status t st (loop (world s))) (world s) |}.

(** A [tasks.loop] runs its body again, after a pause of random length,
    when the body raises one of the connection errors
    ([aiohttp.ClientError], [OSError] and the like); of the exceptions here
    that is [ContentTypeError].  Any other exception ends the task, and so
    does every exception of [get_tokens] and of the two plain tasks. *)
Definition restarts (t : Task) (n : nat) (e : exn) : bool :=
  match t, n, e with
  | RefreshTask, S _, ContentTypeError => true
  | _, _, _ => false
  end.

Definition backoff_pause : M unit :=
  do w <- get_world;
  run modify_world (set_rolls (S (rolls w)));
  sleep (Z.of_nat (dice w (rolls w))).

Definition step_task (t : Task) (s : State) : State :=
  match task_status t (loop (world s)) with
  | Alive n =>
      match iteration t n s with
      | (s', Returns _) => finish t (Alive (S n)) s'
      | (s', Raises e) =>
          if restarts t n e then finish t (Alive n) (fst (backoff_pause s'))
          else finish t (Failed e) s'
      end
  | _ => s
  end.

Definition run_event_loop (schedule : list Task) (s : State) : State :=
  fold_left (fun s t => step_task t s) schedule s.

(** [init_reddit_polling] *)
Definition init_reddit_polling : M unit :=
  do w <- get_world;
  run modify_self (set_reddit_channel (channel_reply w));
  run create_task RefreshTask;
  do c <- get_self;
  match reddit_channel c with
  | Some _ =>
      run match new_posts_task c with
          | None =>
              run modify_self (set_new_posts_task (Some NewPostsTask));
              create_task NewPostsTask
          | Some _ => ret tt
          end;
      do c <- get_self;
      match top_weekly_posts_task c with
      | None =>
          run modify_self (set_top_weekly_posts_task (Some TopWeeklyTask));
          create_task TopWeeklyTask
      | Some _ => ret tt
      end
  | None => ret tt
  end.

End Reddit.

(** * Properties *)

Local Open Scope Z_scope.
Local Open Scope list_scope.

(** ** Running computations step by step *)

Lemma bind_returns {A B} (m : M A) (k : A -> M B) s s' a :
  m s = (s', Returns a) -> bind m k s = k a s'.
Proof. intros H. unfold bind. now rewrite H. Qed.

Lemma bind_raises {A B} (m : M A) (k : A -> M B) s s' e :
  m s = (s', Raises e) -> bind m k s = (s', Raises e).
Proof. intros H. unfold bind. now rewrite H. Qed.

Lemma bind_assoc {A B C} (m : M A) (k : A -> M B) (h : B -> M C) s :
  bind (bind m k) h s = bind m (fun a => bind (k a) h) s.
Proof. unfold bind. destruct (m s) as [s' [a|e]]; reflexivity. Qed.

Definition is_fetch (e : Event) : bool :=
  match e with
  | HttpGet _ _ _ | HttpHead _ _ => true
  | _ => false
  end.

(** ** [fetch_posts] *)

Lemma length_slice_to {A} (k : Z) (l : list A) :
  0 < k -> Z.of_nat (length (slice_to k l)) <= k.
Proof.
  intros Hk. unfold slice_to.
  destruct (Z.leb_spec 0 k); [|lia].
  rewrite length_take. lia.
Qed.

Lemma fetch_attempts_length url amount params n :
  0 < amount ->
  forall s s' posts,
    fetch_attempts url amount params n s = (s', Returns posts) ->
    Z.of_nat (length posts) <= amount.
Proof.
  intros Hk. induction n as [|n IH]; intros s s' posts; simpl.
  - unfold ret. intros [= _ <-]. simpl. lia.
  - unfold bind at 1. unfold attribute, bind, get_self.
    destruct (headers (self s)) as [h|]; simpl; [|discriminate].
    destruct (status_ok _).
    + unfold json. destruct (negb _); simpl; [discriminate|].
      destruct (body _); simpl; try discriminate.
      intros [= _ <-]. now apply length_slice_to.
    + apply IH.
Qed.

(** A failed attempt: one GET, then a pause of three seconds. *)
Definition after_failed_attempt (url : string) (h : Headers)
    (params : list (string * string)) (s : State) : State :=
  {| self := self s;
     world :=
       set_clock (clock (world s) + seconds 3)
         (set_trace (trace (world s) ++ [HttpGet url h params; Sleep (seconds 3)])
            (set_requests (S (requests (world s))) (world s))) |}.

Lemma fetch_attempts_failed url amount params n s h :
  headers (self s) = Some h ->
  status_ok (net (world s) (requests (world s))) = false ->
  fetch_attempts url amount params (S n) s
  = fetch_attempts url amount params n (after_failed_attempt url h params s).
Proof.
  intros Hh Hbad. simpl.
  unfold bind at 1. unfold attribute, bind, get_self. rewrite Hh. simpl.
  rewrite Hbad. unfold after_failed_attempt, set_clock, set_trace, set_requests.
  simpl. rewrite <- app_assoc. reflexivity.
Qed.

(** C5.  [fetch_posts] rejects an [amount] outside (0, 25] with a
    [ValueError] and leaves the state as it was, so no request has been
    issued; with an [amount] inside (0, 25], whatever it returns has at most
    [amount] items, and a first reply that is a proper listing is returned
    cut to [amount] items after that single GET. *)
Theorem fetch_posts_amount (route : string) (amount : Z)
    (params : list (string * string)) (s : State) :
  (~ (0 < amount <= 25) ->
     fetch_posts route amount params s = (s, Raises ValueError))
  /\ (0 < amount <= 25 ->
      (forall s' posts,
         fetch_posts route amount params s = (s', Returns posts) ->
         Z.of_nat (length posts) <= amount)
      /\ (forall h children,
            headers (self s) = Some h ->
            status_ok (net (world s) (requests (world s))) = true ->
            body (net (world s) (requests (world s))) = Listing children ->
            exists s',
              fetch_posts route amount params s
              = (s', Returns (take (Z.to_nat amount) children))
              /\ self s' = self s
              /\ trace (world s')
                 = (trace (world s)
                    ++ [HttpGet (OAUTH_URL +:+ "/" +:+ route) h params])%list)).
Proof.
  split.
  - intros Hbad. unfold fetch_posts.
    destruct (Z.leb_spec amount 25), (Z.ltb_spec 0 amount); simpl;
      try reflexivity.
    exfalso. apply Hbad. lia.
  - intros [Hlo Hhi]. unfold fetch_posts.
    destruct (Z.leb_spec amount 25); [|lia].
    destruct (Z.ltb_spec 0 amount); [|lia]. cbn [negb andb].
    split.
    + intros s' posts. now apply fetch_attempts_length.
    + intros h children Hh Hok Hbody. unfold MAX_FETCH_RETRIES. simpl.
      unfold bind at 1. unfold attribute, bind, get_self. rewrite Hh. simpl.
      rewrite Hok. unfold json.
      unfold status_ok in Hok. apply andb_true_iff in Hok as [_ Hct].
      rewrite Hct. simpl. rewrite Hbody. simpl.
      unfold ret, slice_to. destruct (Z.leb_spec 0 amount); [|lia].
      eexists. split; [reflexivity|]. split; reflexivity.
Qed.

(** C6.  With a valid [amount] and three replies in a row that are not a
    success, [fetch_posts] makes exactly three GET requests, pauses three
    seconds after each of them, and returns the empty list. *)
Theorem fetch_posts_gives_up (route : string) (amount : Z)
    (params : list (string * string)) (s : State) (h : Headers) :
  0 < amount <= 25 ->
  headers (self s) = Some h ->
  (forall i, (i < 3)%nat ->
     status_ok (net (world s) (requests (world s) + i)%nat) = false) ->
  let url := OAUTH_URL +:+ "/" +:+ route in
  let get := HttpGet url h params in
  exists s',
    fetch_posts route amount params s = (s', Returns [])
    /\ self s' = self s
    /\ trace (world s')
       = (trace (world s)
          ++ [get; Sleep 3000000; get; Sleep 3000000; get; Sleep 3000000])%list
    /\ requests (world s') = (requests (world s) + 3)%nat
    /\ clock (world s') = clock (world s) + 9000000.
Proof.
  intros [Hlo Hhi] Hh Hbad url get. unfold fetch_posts.
  destruct (Z.leb_spec amount 25); [|lia].
  destruct (Z.ltb_spec 0 amount); [|lia]. cbn [negb andb].
  fold url. unfold MAX_FETCH_RETRIES. eexists.
  rewrite (fetch_attempts_failed _ _ _ _ s h Hh).
  2:{ specialize (Hbad 0%nat). rewrite Nat.add_0_r in Hbad. apply Hbad. lia. }
  rewrite (fetch_attempts_failed _ _ _ _ _ h); [|exact Hh|].
  2:{ simpl. specialize (Hbad 1%nat). rewrite Nat.add_1_r in Hbad. apply Hbad. lia. }
  rewrite (fetch_attempts_failed _ _ _ _ _ h); [|exact Hh|].
  2:{ simpl. specialize (Hbad 2%nat).
      replace (requests (world s) + 2)%nat with (S (S (requests (world s))))
        in Hbad by lia.
      apply Hbad. lia. }
  split; [reflexivity|]. simpl.
  repeat split.
  - rewrite <- !app_assoc. reflexivity.
  - lia.
  - unfold seconds. lia.
Qed.

(** ** The new-post poller *)

Section Polling.

Variable RedditConfig : RedditConfigT.
Variable shorten : string -> nat -> string.

(** The page decodes to the ordinals [ords], item by item. *)
Definition decodes_to (page : list Post) (ords : list Z) : Prop :=
  Forall2 (fun post n => int36 (id post) = Some n) page ords.

(** The post's ordinal is defined and above the watermark. *)
Definition newer_than (last_id : Z) (post : Post) : bool :=
  match int36 (id post) with
  | Some n => last_id <? n
  | None => false
  end.

(** The messages that relaying [posts] one after the other produces, the
    first of them with id [k]. *)
Fixpoint new_post_sends (channel : Channel) (subreddit : string) (k : nat)
    (posts : list Post) : list Event :=
  match posts with
  | [] => []
  | post :: posts' =>
      Send channel
        {| message_id := k; message_content := None;
           message_embed := new_post_embed subreddit (embed_data shorten post) |}
      :: new_post_sends channel subreddit (S k) posts'
  end.

Lemma filter_newer_nil last_id page ords :
  decodes_to page ords -> Forall (fun n => n <= last_id) ords ->
  List.filter (newer_than last_id) page = [].
Proof.
  induction 1 as [|post n page ords Hn _ IH]; intros Hall; [reflexivity|].
  apply Forall_cons in Hall as [Hle Hall]. simpl.
  unfold newer_than at 1. rewrite Hn.
  destruct (Z.ltb_spec last_id n); [lia|]. now apply IH.
Qed.

Lemma scan_new_posts_sorted last_id page ords s :
  decodes_to page ords -> StronglySorted Z.ge ords ->
  scan_new_posts shorten last_id page s
  = (s, Returns (map (embed_data shorten) (List.filter (newer_than last_id) page))).
Proof.
  induction 1 as [|post n page ords Hn Hrest IH]; intros Hsorted;
    [reflexivity|].
  apply StronglySorted_inv in Hsorted as [Hsorted Hall].
  simpl. unfold newer_than at 1. rewrite Hn.
  destruct (Z.leb_spec n last_id) as [Hle|Hgt].
  - destruct (Z.ltb_spec last_id n); [lia|].
    rewrite (filter_newer_nil last_id page ords Hrest); [reflexivity|].
    eapply Forall_impl; [exact Hall|]. simpl. intros m Hm. lia.
  - destruct (Z.ltb_spec last_id n); [|lia].
    rewrite (bind_returns _ _ _ _ _ (IH Hsorted)). reflexivity.
Qed.

(** The scan reads the state but never writes it. *)
Lemma scan_new_posts_state last_id page s :
  fst (scan_new_posts shorten last_id page s) = s.
Proof.
  induction page as [|post page IH]; [reflexivity|]. simpl.
  destruct (int36 (id post)) as [n|]; [|reflexivity].
  destruct (n <=? last_id); [reflexivity|].
  unfold bind. destruct (scan_new_posts _ _ _ _) as [s' [l|e]]; exact IH.
Qed.

Definition world_after_sends (n : nat) (evs : list Event) (w : World) : World :=
  set_trace (trace w ++ evs) (set_sent (sent w + n) w).

Lemma for_each_send channel subreddit posts s :
  reddit_channel (self s) = Some channel ->
  for_each (map (embed_data shorten) posts)
    (fun data =>
       do channel <- attribute reddit_channel;
       do _ <- channel_send channel None (new_post_embed subreddit data);
       ret tt) s
  = ({| self := self s;
        world := world_after_sends (length posts)
                   (new_post_sends channel subreddit (sent (world s)) posts)
                   (world s) |}, Returns tt).
Proof.
  revert s. induction posts as [|post posts IH]; intros s Hch.
  - simpl. unfold ret, world_after_sends, set_trace, set_sent. simpl.
    rewrite app_nil_r, Nat.add_0_r. now destruct s as [c []].
  - simpl. unfold bind at 1. unfold bind at 1.
    unfold attribute, bind, get_self. rewrite Hch. simpl.
    rewrite IH by exact Hch. simpl.
    unfold world_after_sends, set_trace, set_sent. simpl.
    rewrite <- app_assoc. simpl.
    rewrite Nat.add_succ_r. reflexivity.
Qed.

(** Fetching leaves the fields of the cog alone; probing writes
    [prev_lengths] at most. *)
Lemma fetch_attempts_self url amount params n s :
  self (fst (fetch_attempts url amount params n s)) = self s.
Proof.
  revert s. induction n as [|n IH]; intros s; [reflexivity|]. simpl.
  unfold bind at 1. unfold attribute, bind, get_self.
  destruct (headers (self s)); simpl; [|reflexivity].
  destruct (status_ok _).
  - unfold json. destruct (negb _); simpl; [reflexivity|].
    destruct (body _); reflexivity.
  - rewrite IH. reflexivity.
Qed.

Lemma fetch_posts_self route amount params s :
  self (fst (fetch_posts route amount params s)) = self s.
Proof.
  unfold fetch_posts. destruct (negb _); [reflexivity|].
  apply fetch_attempts_self.
Qed.

Lemma probe_and_fetch_self subreddit s :
  exists lengths,
    self (fst (probe_and_fetch subreddit s)) = set_prev_lengths lengths (self s).
Proof.
  unfold probe_and_fetch. unfold bind at 1. unfold attribute, bind, get_self.
  destruct (headers (self s)) as [h|] eqn:Hh; simpl.
  2:{ exists (prev_lengths (self s)). now destruct s as [[] ?]. }
  destruct (content_length _) as [len|]; simpl.
  2:{ exists (prev_lengths (self s)). now destruct s as [[] ?]. }
  destruct (match prev_lengths (self s) !! subreddit with
            | Some previous => (len =? previous)%string
            | None => false
            end); simpl.
  { exists (prev_lengths (self s)). now destruct s as [[] ?]. }
  match goal with
  | |- context [fetch_posts ?r ?a ?p ?st] =>
      pose proof (fetch_posts_self r a p st) as Hself;
      destruct (fetch_posts r a p st) as [s' [posts|e]]
  end; simpl in *; rewrite Hself; eexists; reflexivity.
Qed.

Lemma relay_new_posts_sorted subreddit top rest n ords last_id channel s :
  last_ids (self s) !! subreddit = Some last_id ->
  reddit_channel (self s) = Some channel ->
  decodes_to (top :: rest) (n :: ords) ->
  StronglySorted Z.ge (n :: ords) ->
  let new_posts := List.filter (newer_than last_id) (top :: rest) in
  relay_new_posts shorten subreddit (top :: rest) s
  = ({| self := set_last_ids (<[subreddit := n]> (last_ids (self s))) (self s);
        world := world_after_sends (length new_posts)
                   (new_post_sends channel subreddit (sent (world s)) new_posts)
                   (world s) |}, Returns tt).
Proof.
  intros Hlast Hch Hdec Hsorted new_posts. unfold relay_new_posts.
  unfold bind at 1. unfold get_self at 1. cbv beta iota. rewrite Hlast.
  rewrite (bind_returns _ _ _ _ _ (scan_new_posts_sorted _ _ _ s Hdec Hsorted)).
  unfold bind at 1. unfold ret at 1. cbv beta iota.
  pose proof Hdec as Htop. apply Forall2_cons in Htop as [Htop _].
  rewrite Htop. unfold bind at 1. unfold ret at 1. cbv beta iota.
  unfold bind at 1. unfold modify_self at 1. cbv beta iota.
  erewrite bind_returns; [|apply for_each_send; exact Hch].
  unfold attribute, bind, get_self. simpl. rewrite Hch. reflexivity.
Qed.

Lemma filter_newer_sorted last_id page ords :
  decodes_to page ords -> StronglySorted Z.ge ords ->
  exists new_ords,
    decodes_to (List.filter (newer_than last_id) page) new_ords
    /\ StronglySorted Z.ge new_ords
    /\ Forall (fun n => last_id < n) new_ords
    /\ (forall m, In m new_ords -> In m ords).
Proof.
  induction 1 as [|post n page ords Hn Hrest IH]; intros Hsorted.
  - exists []. repeat split; try constructor. intros m [].
  - apply StronglySorted_inv in Hsorted as [Hsorted Hall].
    destruct (IH Hsorted) as (new_ords & Hdec & Hst & Habove & Hsub).
    simpl. unfold newer_than at 1. rewrite Hn.
    destruct (Z.ltb_spec last_id n).
    + exists (n :: new_ords). repeat split.
      * constructor; assumption.
      * constructor; [assumption|].
        apply List.Forall_forall. intros m Hm.
        rewrite List.Forall_forall in Hall. apply Hall, Hsub, Hm.
      * constructor; assumption.
      * intros m [<-|Hm]; [now left|right; now apply Hsub].
    + exists new_ords. repeat split; try assumption.
      intros m Hm. right. now apply Hsub.
Qed.

Lemma for_each_self {A} (l : list A) (body : A -> M unit) :
  (forall x s, self (fst (body x s)) = self s) ->
  forall s, self (fst (for_each l body s)) = self s.
Proof.
  intros Hbody. induction l as [|x l IH]; intros s; [reflexivity|]. simpl.
  unfold bind. specialize (Hbody x s).
  destruct (body x s) as [s' [[]|e]]; simpl in *; [|exact Hbody].
  now rewrite IH.
Qed.

Lemma send_new_post_self subreddit data s :
  self (fst ((do channel <- attribute reddit_channel;
              do _ <- channel_send channel None (new_post_embed subreddit data);
              ret tt) s)) = self s.
Proof.
  unfold bind at 1. unfold attribute, bind, get_self.
  destruct (reddit_channel (self s)); reflexivity.
Qed.

(** After the relay the watermarks are as before, or the entry of the
    subreddit is the ordinal of the first post of the page. *)
Lemma relay_new_posts_last_ids subreddit page s :
  let s' := fst (relay_new_posts shorten subreddit page s) in
  last_ids (self s') = last_ids (self s)
  \/ exists top rest n,
       page = top :: rest /\ int36 (id top) = Some n
       /\ last_ids (self s') = <[subreddit := n]> (last_ids (self s)).
Proof.
  intros s'. subst s'.
  remember (relay_new_posts shorten subreddit page s) as r eqn:Hr.
  unfold relay_new_posts in Hr. unfold bind at 1 in Hr.
  unfold get_self at 1 in Hr. cbv beta iota in Hr. unfold bind at 1 in Hr.
  assert (Hscan : forall o : option Z,
            fst (match o with
                 | Some last_id => scan_new_posts shorten last_id page
                 | None => ret []
                 end s) = s).
  { intros [last_id|]; [apply scan_new_posts_state|reflexivity]. }
  specialize (Hscan (last_ids (self s) !! subreddit)).
  destruct (match last_ids (self s) !! subreddit with
            | Some last_id => scan_new_posts shorten last_id page
            | None => ret []
            end s) as [s0 [new_posts|e]]; simpl in Hscan; subst s0;
    [|subst r; now left].
  destruct page as [|top rest]; [subst r; now left|].
  unfold bind at 1 in Hr. unfold ret at 1 in Hr. cbv beta iota in Hr.
  destruct (int36 (id top)) as [n|] eqn:Hn; [|subst r; now left].
  unfold bind at 1 in Hr. unfold ret at 1 in Hr. cbv beta iota in Hr.
  unfold bind at 1 in Hr. unfold modify_self at 1 in Hr. cbv beta iota in Hr.
  right. exists top, rest, n. split; [reflexivity|]. split; [exact Hn|].
  unfold bind at 1 in Hr.
  match type of Hr with
  | context [for_each ?l ?b ?st] =>
      pose proof (for_each_self l b (send_new_post_self subreddit) st) as Hself;
      destruct (for_each l b st) as [s1 [[]|e]]
  end; simpl in Hself.
  - unfold attribute, bind, get_self in Hr.
    destruct (reddit_channel (self s1)); subst r; simpl; now rewrite Hself.
  - subst r. simpl. now rewrite Hself.
Qed.

(** The general shape of the watermark after one round for a subreddit:
    unchanged, or the ordinal of the first post of the fetched page. *)
Lemma poll_subreddit_last_ids subreddit s :
  let s' := fst (poll_subreddit shorten subreddit s) in
  last_ids (self s') = last_ids (self s)
  \/ exists s1 top rest n,
       probe_and_fetch subreddit s = (s1, Returns (Some (top :: rest)))
       /\ int36 (id top) = Some n
       /\ last_ids (self s') = <[subreddit := n]> (last_ids (self s)).
Proof.
  unfold poll_subreddit, bind.
  destruct (probe_and_fetch_self subreddit s) as [lengths Hself].
  destruct (probe_and_fetch subreddit s) as [s1 [[page|]|e]] eqn:Hpf;
    simpl in Hself; try (left; simpl; now rewrite Hself).
  destruct (relay_new_posts_last_ids subreddit page s1)
    as [Hsame|(top & rest & n & -> & Hn & Hnew)].
  - left. rewrite Hsame, Hself. reflexivity.
  - right. exists s1, top, rest, n. split; [reflexivity|]. split; [exact Hn|].
    rewrite Hnew, Hself. reflexivity.
Qed.

Lemma probe_and_fetch_fields subreddit s s1 r :
  probe_and_fetch subreddit s = (s1, r) ->
  last_ids (self s1) = last_ids (self s)
  /\ reddit_channel (self s1) = reddit_channel (self s).
Proof.
  intros Hpf. destruct (probe_and_fetch_self subreddit s) as [lengths Hself].
  rewrite Hpf in Hself. simpl in Hself. now rewrite Hself.
Qed.

(** C1, as the code has it.  For a subreddit with watermark [W], a round
    whose fetched page is not empty and sorted most recent first sends
    exactly the posts of the page whose ordinal is above [W], one message
    each, in the order of the page: most recent first, so in descending
    order of their ordinals. *)
Theorem poll_sends_newer_posts_in_page_order
    (subreddit : string) (s s1 : State) (page : list Post) (ords : list Z)
    (W : Z) (channel : Channel) :
  last_ids (self s) !! subreddit = Some W ->
  reddit_channel (self s) = Some channel ->
  probe_and_fetch subreddit s = (s1, Returns (Some page)) ->
  page <> [] ->
  decodes_to page ords ->
  StronglySorted Z.ge ords ->
  let new_posts := List.filter (newer_than W) page in
  exists s2 new_ords,
    poll_subreddit shorten subreddit s = (s2, Returns tt)
    /\ trace (world s2)
       = (trace (world s1)
          ++ new_post_sends channel subreddit (sent (world s1)) new_posts)%list
    /\ decodes_to new_posts new_ords
    /\ StronglySorted Z.ge new_ords
    /\ Forall (fun n => W < n) new_ords.
Proof.
  intros Hlast Hch Hpf Hne Hdec Hsorted new_posts.
  destruct (probe_and_fetch_fields _ _ _ _ Hpf) as [Hids Hchan].
  destruct (filter_newer_sorted W page ords Hdec Hsorted)
    as (new_ords & Hnew & Hst & Habove & _).
  destruct Hdec as [|top n rest ords' Hn Hrest]; [congruence|].
  eexists _, new_ords. split; [|split; [|repeat split; eassumption]].
  - unfold poll_subreddit. rewrite (bind_returns _ _ _ _ _ Hpf).
    apply (relay_new_posts_sorted subreddit top rest n ords' W channel s1).
    + now rewrite Hids.
    + now rewrite Hchan.
    + now constructor.
    + exact Hsorted.
  - reflexivity.
Qed.

(** C2.  For a subreddit without a watermark, a round whose fetch returns
    a page that is not empty sends nothing (the world after the round is the
    world right after the fetch) and records the ordinal of the first post
    of the page as the watermark. *)
Theorem cold_start_sets_watermark
    (subreddit : string) (s s1 : State) (top : Post) (rest : list Post)
    (n : Z) (channel : Channel) :
  last_ids (self s) !! subreddit = None ->
  reddit_channel (self s) = Some channel ->
  probe_and_fetch subreddit s = (s1, Returns (Some (top :: rest))) ->
  int36 (id top) = Some n ->
  exists s2,
    poll_subreddit shorten subreddit s = (s2, Returns tt)
    /\ world s2 = world s1
    /\ last_ids (self s2) !! subreddit = Some n.
Proof.
  intros Hlast Hch Hpf Hn.
  destruct (probe_and_fetch_fields _ _ _ _ Hpf) as [Hids Hchan].
  eexists. split.
  - unfold poll_subreddit. rewrite (bind_returns _ _ _ _ _ Hpf).
    unfold relay_new_posts. unfold bind at 1. unfold get_self at 1.
    cbv beta iota. rewrite Hids, Hlast.
    unfold bind at 1. unfold ret at 1. cbv beta iota.
    unfold bind at 1. unfold ret at 1. cbv beta iota. rewrite Hn.
    unfold bind at 1. unfold ret at 1. cbv beta iota.
    unfold bind at 1. unfold modify_self at 1. cbv beta iota.
    simpl for_each. unfold bind at 1. unfold ret at 1. cbv beta iota.
    unfold attribute, bind, get_self. simpl. rewrite Hchan, Hch. reflexivity.
  - simpl. split; [now destruct (world s1)|]. apply lookup_insert_eq.
Qed.

(** C3, as the code has it.  A round assigns the ordinal of the first post
    of the fetched page to the watermark, whatever it was: the watermark
    after the round is the one before it or that ordinal, and so is at least
    the watermark [W] before it provided that ordinal, when a page is
    fetched, is at least [W]. *)
Theorem watermark_not_below_when_top_is_not
    (subreddit : string) (s : State) (W : Z) :
  last_ids (self s) !! subreddit = Some W ->
  (forall s1 top rest n,
     probe_and_fetch subreddit s = (s1, Returns (Some (top :: rest))) ->
     int36 (id top) = Some n -> W <= n) ->
  exists W',
    last_ids (self (fst (poll_subreddit shorten subreddit s))) !! subreddit
    = Some W'
    /\ W <= W'
    /\ (W' = W
        \/ exists s1 top rest,
             probe_and_fetch subreddit s = (s1, Returns (Some (top :: rest)))
             /\ int36 (id top) = Some W').
Proof.
  intros Hlast Htop.
  destruct (poll_subreddit_last_ids subreddit s)
    as [Hsame|(s1 & top & rest & n & Hpf & Hn & Hnew)].
  - exists W. rewrite Hsame. split; [exact Hlast|]. split; [lia|now left].
  - exists n. rewrite Hnew. split; [apply lookup_insert_eq|].
    split; [exact (Htop s1 top rest n Hpf Hn)|].
    right. now exists s1, top, rest.
Qed.

(** A round that fetches an empty page ends in the [IndexError] of
    [posts[0]], whatever the watermark. *)
Lemma poll_subreddit_empty_page subreddit s s1 :
  probe_and_fetch subreddit s = (s1, Returns (Some [])) ->
  poll_subreddit shorten subreddit s = (s1, Raises IndexError).
Proof.
  intros Hpf. unfold poll_subreddit. rewrite (bind_returns _ _ _ _ _ Hpf).
  unfold relay_new_posts. unfold bind at 1. unfold get_self at 1.
  cbv beta iota.
  destruct (last_ids (self s1) !! subreddit); reflexivity.
Qed.

End Polling.

(** ** Concrete runs *)

Definition example_config : RedditConfigT :=
  {| client_id := "client"; secret := "secret";
     subreddits := ["r/Python"]; request_delay := 10 |}.

Definition example_replies : list string := ["Nope."; "Not today."].

(** On the short texts of the examples [textwrap.shorten] changes nothing. *)
Definition example_shorten (text : string) (width : nat) : string := text.

Definition example_post (i : string) : Post :=
  {| id := i; title := "post " +:+ i; selftext := "";
     permalink := "/r/Python/comments/" +:+ i; author := "someone";
     ups := 1; num_comments := 0 |}.

Definition head_reply (len : string) : Response :=
  {| status := 200; content_type := "application/atom+xml";
     content_length := Some len; body := Undecodable |}.

Definition listing_reply (posts : list Post) : Response :=
  {| status := 200; content_type := "application/json";
     content_length := None; body := Listing posts |}.

Definition token_reply (access refresh : string) : Response :=
  {| status := 200; content_type := "application/json";
     content_length := None; body := Tokens (Some access) (Some refresh) |}.

Definition error_reply : Response :=
  {| status := 503; content_type := "text/html";
     content_length := Some "0"; body := Undecodable |}.

Definition example_channel : Channel := {| channel_id := 1 |}.

Definition idle_loop : Loop :=
  {| refresh_status := NotCreated; new_posts_status := NotCreated;
     top_weekly_status := NotCreated |}.

(** A world that answers with [replies], then with errors only; its clock
    shows 2020-01-01T12:00:00.5, a Wednesday. *)
Definition example_world (replies : list Response) (pins : list Message)
    : World :=
  {| net := fun n => nth n replies error_reply;
     requests := 0; dice := fun n => n; rolls := 0;
     clock := (ymd2ord 2020 1 1 - 1) * DAY + 43200500000;
     trace := []; pinned := pins; sent := 100;
     channel_reply := Some example_channel; loop := idle_loop |}.

(** The cog once the tokens are there and the channel is known. *)
Definition example_cog (ids : gmap string Z) : Cog :=
  {| reddit_channel := Some example_channel; prev_lengths := ∅;
     last_ids := ids;
     new_posts_task := Some NewPostsTask;
     top_weekly_posts_task := Some TopWeeklyTask;
     client_auth := Some {| login := "client"; password := "secret" |};
     access_token := Some "access"; refresh_token := Some "refresh";
     headers := Some (bearer_headers "access") |}.

Definition example_state (ids : gmap string Z) (replies : list Response) : State :=
  {| self := example_cog ids; world := example_world replies [] |}.

Definition sent_titles (evs : list Event) : list string :=
  flat_map (fun e => match e with
                     | Send _ m => match embed_title (message_embed m) with
                                   | Some t => [t]
                                   | None => []
                                   end
                     | _ => []
                     end) evs.

(** The scenario of a known watermark: watermark 2, the page has the ids
    4, 3 and 2. *)
Definition page_432 : list Post :=
  [example_post "4"; example_post "3"; example_post "2"].

Definition state_432 : State :=
  example_state {["r/Python" := 2]} [head_reply "1000"; listing_reply page_432].

Lemma poll_sends_newer_posts_in_page_order_witness :
  exists s2 new_ords,
    poll_subreddit example_shorten "r/Python" state_432 = (s2, Returns tt)
    /\ trace (world s2)
       = (trace (world (fst (probe_and_fetch "r/Python" state_432)))
          ++ new_post_sends example_shorten example_channel "r/Python" 100
               [example_post "4"; example_post "3"])%list
    /\ decodes_to [example_post "4"; example_post "3"] new_ords
    /\ StronglySorted Z.ge new_ords
    /\ Forall (fun n => 2 < n) new_ords.
Proof.
  apply (poll_sends_newer_posts_in_page_order example_shorten "r/Python"
           state_432 (fst (probe_and_fetch "r/Python" state_432))
           page_432 [4; 3; 2] 2 example_channel).
  - reflexivity.
  - reflexivity.
  - vm_compute. reflexivity.
  - discriminate.
  - repeat constructor.
  - repeat (constructor; try lia).
Defined.

(** C1, as stated, fails: with watermark 2 and the page 4, 3, 2 the posts
    go out as 4 then 3, which is descending, not ascending, order. *)
Lemma poll_sends_most_recent_first_example :
  let s' := fst (poll_subreddit example_shorten "r/Python" state_432) in
  sent_titles (trace (world s')) = ["post 4"; "post 3"]
  /\ sent_titles (trace (world s')) <> ["post 3"; "post 4"]
  /\ last_ids (self s') !! "r/Python" = Some 4.
Proof. vm_compute. repeat split. discriminate. Qed.

(** The cold-start scenario: no watermark, the page has the ids 2 and 1. *)
Definition state_cold : State :=
  example_state ∅
    [head_reply "1000"; listing_reply [example_post "2"; example_post "1"]].

Lemma cold_start_sets_watermark_witness :
  exists s2,
    poll_subreddit example_shorten "r/Python" state_cold = (s2, Returns tt)
    /\ world s2 = world (fst (probe_and_fetch "r/Python" state_cold))
    /\ last_ids (self s2) !! "r/Python" = Some 2.
Proof.
  apply (cold_start_sets_watermark example_shorten "r/Python" state_cold
           (fst (probe_and_fetch "r/Python" state_cold))
           (example_post "2") [example_post "1"] 2 example_channel).
  - reflexivity.
  - reflexivity.
  - vm_compute. reflexivity.
  - reflexivity.
Defined.

Example cold_start_sends_nothing :
  sent_titles
    (trace (world (fst (poll_subreddit example_shorten "r/Python" state_cold))))
  = [].
Proof. vm_compute. reflexivity. Qed.

(** A page whose first post is older than the watermark: watermark 5, the
    page has the id 3 only. *)
Definition state_stale : State :=
  example_state {["r/Python" := 5]}
    [head_reply "900"; listing_reply [example_post "3"]].

(** C3, as stated, fails: the watermark goes from 5 down to 3. *)
Lemma watermark_decreases_example :
  let s' := fst (poll_subreddit example_shorten "r/Python" state_stale) in
  last_ids (self state_stale) !! "r/Python" = Some 5
  /\ last_ids (self s') !! "r/Python" = Some 3
  /\ ~ (5 <= 3).
Proof. vm_compute. repeat split. intros H. apply H. reflexivity. Qed.

Lemma watermark_not_below_when_top_is_not_witness :
  exists W',
    last_ids (self (fst (poll_subreddit example_shorten "r/Python" state_432)))
      !! "r/Python" = Some W'
    /\ 2 <= W'
    /\ (W' = 2
        \/ exists s1 top rest,
             probe_and_fetch "r/Python" state_432
             = (s1, Returns (Some (top :: rest)))
             /\ int36 (id top) = Some W').
Proof.
  apply (watermark_not_below_when_top_is_not example_shorten "r/Python"
           state_432 2).
  - reflexivity.
  - intros s1 top rest n Hpf Hn. vm_compute in Hpf.
    injection Hpf as _ <- _. vm_compute in Hn. injection Hn as <-. lia.
Defined.

(** The scenario of an exhausted fetch: the probe shows a change, then
    every reply is an error. *)
Definition state_unavailable : State :=
  {| self := example_cog {["r/Python" := 5]};
     world := set_loop {| refresh_status := Alive 1;
                          new_posts_status := Alive 0;
                          top_weekly_status := Alive 0 |}
                (example_world [head_reply "900"] []) |}.

(** C4.  The code does index the empty page: after the three failed
    attempts [fetch_posts] returns the empty list, [posts[0]] raises
    [IndexError], and that is the end of the polling task; the watermark is
    as it was. *)
Theorem empty_page_is_indexed :
  let s0 := fst (sleep (seconds 10) state_unavailable) in
  let s' := step_task example_config example_replies example_shorten
              NewPostsTask state_unavailable in
  snd (probe_and_fetch "r/Python" s0) = Returns (Some [])
  /\ snd (poll_subreddit example_shorten "r/Python" s0) = Raises IndexError
  /\ new_posts_status (loop (world s')) = Failed IndexError
  /\ last_ids (self s') !! "r/Python" = Some 5.
Proof. vm_compute. repeat split. Qed.

Lemma fetch_posts_amount_witness :
  fetch_posts "r/Python/new" 30 [] state_432 = (state_432, Raises ValueError)
  /\ fetch_posts "r/Python/new" 0 [] state_432 = (state_432, Raises ValueError)
  /\ (forall s' posts,
        fetch_posts "r/Python/top" 2 [] state_432 = (s', Returns posts) ->
        Z.of_nat (length posts) <= 2).
Proof.
  split; [|split].
  - apply (fetch_posts_amount "r/Python/new" 30 [] state_432). lia.
  - apply (fetch_posts_amount "r/Python/new" 0 [] state_432). lia.
  - apply (fetch_posts_amount "r/Python/top" 2 [] state_432). lia.
Defined.

Lemma fetch_posts_gives_up_witness :
  exists s',
    fetch_posts "r/Python/new" 25 [] (example_state ∅ []) = (s', Returns [])
    /\ self s' = self (example_state ∅ [])
    /\ trace (world s')
       = (let get := HttpGet "https://oauth.reddit.com/r/Python/new"
                       (bearer_headers "access") [] in
          [get; Sleep 3000000; get; Sleep 3000000; get; Sleep 3000000])
    /\ requests (world s') = 3%nat
    /\ clock (world s') = clock (world (example_state ∅ [])) + 9000000.
Proof.
  apply (fetch_posts_gives_up "r/Python/new" 25 [] (example_state ∅ [])
           (bearer_headers "access")).
  - lia.
  - reflexivity.
  - intros i Hi. simpl. now destruct i as [|[|[|i]]].
Defined.

(** ** The weekly timer *)

Definition WEEK : Z := 7 * DAY.

(** The time from [now] to the next Monday 00:00:00.000000 after it, in
    microseconds.  Day 1 is a Monday, so the Monday midnights are the
    instants that [WEEK] divides. *)
Definition until_next_monday_midnight (now : datetime) : Z :=
  WEEK - instant now mod WEEK.

Lemma until_next_monday_midnight_spec now :
  let d := until_next_monday_midnight now in
  0 < d <= WEEK
  /\ (instant now + d) mod WEEK = 0
  /\ (forall d', 0 < d' < d -> (instant now + d') mod WEEK <> 0).
Proof.
  unfold until_next_monday_midnight, WEEK, DAY. cbv zeta.
  pose proof (Z.mod_pos_bound (instant now) (7 * 86400000000) ltac:(lia)) as Hr.
  pose proof (Z.div_mod (instant now) (7 * 86400000000) ltac:(lia)) as Hq.
  set (r := instant now mod (7 * 86400000000)) in *.
  set (q := instant now / (7 * 86400000000)) in *.
  split; [lia|]. split.
  - replace (instant now + (7 * 86400000000 - r))
      with (0 + (q + 1) * (7 * 86400000000)) by lia.
    now rewrite Z.mod_add by lia.
  - intros d' Hd' Hzero.
    assert (Hrem : (instant now + d') mod (7 * 86400000000) = r + d').
    { symmetry. apply (Z.mod_unique_pos _ _ q); lia. }
    lia.
Qed.

Lemma instant_mod_week now :
  0 <= hour now < 24 -> 0 <= minute now < 60 -> 0 <= second now < 60 ->
  0 <= microsecond now < 1000000 ->
  instant now mod WEEK
  = weekday now * DAY
    + ((hour now * 60 + minute now) * 60 + second now) * 1000000
    + microsecond now.
Proof.
  intros Hh Hm Hs Hus. unfold weekday, instant, WEEK, DAY.
  pose proof (Z.mod_pos_bound (toordinal now + 6) 7 ltac:(lia)) as Hr.
  pose proof (Z.div_mod (toordinal now + 6) 7 ltac:(lia)) as Hq.
  set (wd := (toordinal now + 6) mod 7) in *.
  set (q := (toordinal now + 6) / 7) in *.
  symmetry. apply (Z.mod_unique_pos _ _ (q - 1)); lia.
Qed.

(** What the loop computes is the time to the next Monday midnight plus
    the microseconds of [now], which [replace] does not reset. *)
Lemma until_monday_value now :
  valid_datetime now -> toordinal now + 7 <= MAXORDINAL ->
  until_monday now
  = Returns (until_next_monday_midnight now + microsecond now).
Proof.
  intros (Ho & Hh & Hm & Hs & Hus) Hmax.
  unfold until_monday, add_days, until_next_monday_midnight.
  rewrite (instant_mod_week now Hh Hm Hs Hus).
  pose proof (Z.mod_pos_bound (toordinal now + 6) 7 ltac:(lia)) as Hwd.
  fold (weekday now) in Hwd.
  destruct (Z.leb_spec 1 (toordinal now + (7 - weekday now))); [|lia].
  destruct (Z.leb_spec (toordinal now + (7 - weekday now)) MAXORDINAL);
    [|unfold MAXORDINAL in *; lia].
  simpl. f_equal. unfold datetime_sub, replace_hms, instant, WEEK, DAY. simpl.
  lia.
Qed.

Lemma until_monday_exact_iff now :
  valid_datetime now -> toordinal now + 7 <= MAXORDINAL ->
  until_monday now = Returns (until_next_monday_midnight now)
  <-> microsecond now = 0.
Proof.
  intros Hv Hmax. rewrite (until_monday_value now Hv Hmax). split.
  - intros [= H]. lia.
  - intros ->. now rewrite Z.add_0_r.
Qed.

(** 2020-01-01T12:00:00.500000, a Wednesday. *)
Definition wednesday_noon_and_a_half : datetime :=
  {| toordinal := ymd2ord 2020 1 1; hour := 12; minute := 0; second := 0;
     microsecond := 500000 |}.

(** C9.  At 2020-01-01T12:00:00.5 the next Monday midnight is
    388799.5 seconds away, but the loop computes 388800 seconds: the
    moment it aims at is Monday 2020-01-06T00:00:00.5, whose microsecond
    field is that of [now], not zero. *)
Theorem until_monday_keeps_microseconds :
  let now := wednesday_noon_and_a_half in
  valid_datetime now
  /\ weekday now = 2
  /\ until_next_monday_midnight now = 388799500000
  /\ until_monday now = Returns 388800000000
  /\ datetime_of_instant (instant now + 388800000000)
     = {| toordinal := ymd2ord 2020 1 6; hour := 0; minute := 0; second := 0;
          microsecond := 500000 |}.
Proof.
  cbv zeta. split; [|vm_compute; repeat split].
  unfold valid_datetime. vm_compute. repeat split; discriminate.
Qed.

(** ** Pin maintenance *)

Lemma unpin_sublist (m : Message) (pins l : list Message) :
  pins `sublist_of` l ++ [m] ->
  filter (fun m' => same_message m m' = false) pins `sublist_of` l.
Proof.
  intros Hsub. apply sublist_app_r in Hsub as (p1 & p2 & -> & H1 & H2).
  rewrite filter_app.
  assert (Hp2 : filter (fun m' => same_message m m' = false) p2 = []).
  { apply sublist_cons_r in H2 as [H2|(p2' & -> & H2)];
      apply sublist_nil_r in H2; subst; [reflexivity|].
    rewrite filter_cons.
    destruct (decide (same_message m m = false)) as [Hne|_]; [|reflexivity].
    unfold same_message in Hne. rewrite (Nat.eqb_refl (message_id m)) in Hne.
    discriminate. }
  rewrite Hp2, app_nil_r. transitivity p1; [apply sublist_filter|exact H1].
Qed.

(** The [while] loop, given rounds enough: it unpins the entries from the
    fifth on, the oldest (last) first, and what stays pinned is among the
    first four. *)
Lemma unpin_oldest_spec (rounds : nat) :
  forall (pins : list Message) (s : State),
    (length pins <= rounds + 4)%nat ->
    pinned (world s) `sublist_of` pins ->
    exists s',
      unpin_oldest rounds pins s = (s', Returns tt)
      /\ self s' = self s
      /\ trace (world s') = (trace (world s) ++ map Unpin (rev (drop 4 pins)))%list
      /\ pinned (world s') `sublist_of` take 4 pins.
Proof.
  assert (Hstop : forall (pins : list Message) (s : State),
             (length pins <= 4)%nat -> pinned (world s) `sublist_of` pins ->
             self s = self s
             /\ trace (world s)
                = (trace (world s) ++ map Unpin (rev (drop 4 pins)))%list
             /\ pinned (world s) `sublist_of` take 4 pins).
  { intros pins s Hlen Hsub. rewrite drop_ge, take_ge by lia. simpl.
    now rewrite app_nil_r. }
  induction rounds as [|rounds IH]; intros pins s Hlen Hsub.
  - exists s. split; [reflexivity|]. apply Hstop; [lia|exact Hsub].
  - cbn [unpin_oldest].
    destruct (Nat.leb_spec 5 (length pins)) as [Hfive|Hfew].
    2:{ exists s. split; [reflexivity|]. apply Hstop; [lia|exact Hsub]. }
    destruct (last pins) as [m|] eqn:Hlast.
    2:{ apply last_None in Hlast. subst pins. simpl in Hfive. lia. }
    apply last_Some in Hlast as [l ->]. rewrite removelast_last.
    rewrite length_app in Hlen, Hfive. simpl in Hlen, Hfive.
    unfold bind at 1. unfold message_unpin, bind, emit, modify_world.
    cbv beta iota.
    match goal with
    | |- context [unpin_oldest rounds l ?st] =>
        destruct (IH l st) as (s' & Hrun & Hself & Htrace & Hpins)
    end.
    + lia.
    + simpl. now apply unpin_sublist.
    + exists s'. split; [exact Hrun|]. split; [exact Hself|]. split.
      * rewrite Htrace. simpl. rewrite drop_app_le by lia.
        rewrite rev_unit. simpl. now rewrite <- app_assoc.
      * rewrite take_app_le by lia. exact Hpins.
Qed.

Section Weekly.

Variable ERROR_REPLIES : list string.
Variable shorten : string -> nat -> string.

Lemma send_top_posts_self channel subreddit content time s :
  self (fst (send_top_posts ERROR_REPLIES shorten channel subreddit content time s))
  = self s.
Proof.
  unfold send_top_posts. unfold bind at 1. unfold emit, modify_world.
  cbv beta iota. unfold bind at 1.
  match goal with
  | |- context [fetch_posts ?r ?a ?p ?st] =>
      pose proof (fetch_posts_self r a p st) as Hself;
      destruct (fetch_posts r a p st) as [s1 [posts|e]]
  end; simpl in Hself; [|exact Hself].
  destruct posts as [|post posts]; [|simpl; exact Hself].
  unfold random_choice, bind, get_world, modify_world. cbv beta iota.
  destruct (ERROR_REPLIES !! _); simpl; exact Hself.
Qed.

Lemma maintain_pins_spec channel message s :
  reddit_channel (self s) = Some channel ->
  let pins := pinned (world s) in
  exists s' kept,
    maintain_pins message s = (s', Returns tt)
    /\ self s' = self s
    /\ trace (world s')
       = trace (world s)
         ++ Pins channel :: map Unpin (rev (drop 4 pins)) ++ [Pin message]
    /\ pinned (world s') = message :: kept
    /\ kept `sublist_of` take 4 pins.
Proof.
  intros Hch pins. unfold maintain_pins.
  unfold bind at 1. unfold attribute, bind at 1, get_self. rewrite Hch.
  unfold ret at 1. cbv beta iota.
  unfold bind at 1. unfold channel_pins, bind at 1, emit, modify_world.
  cbv beta iota. unfold bind at 1, get_world, ret at 1. cbv beta iota.
  cbn [world pinned set_trace]. fold pins.
  destruct (unpin_oldest_spec (length pins) pins
              {| self := self s;
                 world := set_trace (trace (world s) ++ [Pins channel]) (world s) |})
    as (s1 & Hrun & Hself & Htrace & Hpins).
  - lia.
  - reflexivity.
  - unfold bind at 1. rewrite Hrun.
    unfold message_pin, bind, emit, modify_world. cbv beta iota.
    eexists _, (pinned (world s1)). split; [reflexivity|]. simpl.
    split; [exact Hself|]. split; [|split; [reflexivity|exact Hpins]].
    rewrite Htrace. simpl. rewrite <- !app_assoc. reflexivity.
Qed.

(** C8.  In the weekly round for a subreddit whose lower-cased name is
    "r/python", once the digest message is sent the pin maintenance lists
    the pins, unpins those from the fifth on, oldest first, and then pins
    the digest: the channel ends with the digest and at most four of the
    earlier pins, so with at most five.  With exactly five pins before,
    there is exactly one unpin, of the oldest, before the new pin. *)
Theorem weekly_pins_at_most_five
    (subreddit : string) (s s1 : State) (channel : Channel) (message : Message) :
  lower subreddit = "r/python" ->
  reddit_channel (self s) = Some channel ->
  send_top_posts ERROR_REPLIES shorten channel subreddit
    (Some ("This week's top " +:+ subreddit +:+ " posts have arrived!")) "week" s
  = (s1, Returns message) ->
  let pins := pinned (world s1) in
  exists s2 kept,
    weekly_subreddit ERROR_REPLIES shorten subreddit s = (s2, Returns tt)
    /\ trace (world s2)
       = trace (world s1)
         ++ Pins channel :: map Unpin (rev (drop 4 pins)) ++ [Pin message]
    /\ pinned (world s2) = message :: kept
    /\ kept `sublist_of` take 4 pins
    /\ (length (pinned (world s2)) <= 5)%nat
    /\ (length pins = 5%nat ->
        exists oldest,
          last pins = Some oldest /\ rev (drop 4 pins) = [oldest]).
Proof.
  intros Hprimary Hch Hsend pins.
  pose proof (send_top_posts_self channel subreddit
                (Some ("This week's top " +:+ subreddit +:+ " posts have arrived!"))
                "week" s) as Hself.
  rewrite Hsend in Hself. simpl in Hself.
  destruct (maintain_pins_spec channel message s1)
    as (s2 & kept & Hrun & _ & Htrace & Hpinned & Hkept).
  { now rewrite Hself. }
  exists s2, kept. split; [|split; [exact Htrace|split; [exact Hpinned|]]].
  - unfold weekly_subreddit. unfold bind at 1.
    unfold attribute, bind at 1, get_self. rewrite Hch.
    unfold ret at 1. cbv beta iota. unfold bind at 1. rewrite Hsend.
    rewrite Hprimary. exact Hrun.
  - split; [exact Hkept|]. split.
    + rewrite Hpinned. simpl. apply sublist_length in Hkept.
      rewrite length_take in Hkept. lia.
    + intros Hfive. fold pins. clearbody pins.
      destruct pins as [|p1 [|p2 [|p3 [|p4 [|p5 [|p6 pins]]]]]];
        try discriminate.
      exists p5. split; reflexivity.
Qed.

End Weekly.

(** The digest round for "r/Python" with five digests pinned already. *)
Definition old_pin (k : nat) : Message :=
  {| message_id := k; message_content := Some "This week's top posts";
     message_embed := Embed_new |}.

Definition state_digest : State :=
  {| self := example_cog ∅;
     world := example_world [listing_reply [example_post "a"; example_post "b"]]
                [old_pin 5; old_pin 4; old_pin 3; old_pin 2; old_pin 1] |}.

Definition digest_sent : State * outcome Message :=
  send_top_posts example_replies example_shorten example_channel "r/Python"
    (Some ("This week's top " +:+ "r/Python" +:+ " posts have arrived!")) "week"
    state_digest.

Definition digest_message : Message :=
  match snd digest_sent with
  | Returns m => m
  | Raises _ => old_pin 0
  end.

Example digest_message_value :
  message_id digest_message = 100%nat
  /\ embed_description (message_embed digest_message)
     = Some ("[**post a**](https://www.reddit.com/r/Python/comments/a)" +:+ nl
             +:+ "| 1 upvotes | 0 comments | u/someone | r/Python |" +:+ nl +:+ nl
             +:+ "[**post b**](https://www.reddit.com/r/Python/comments/b)" +:+ nl
             +:+ "| 1 upvotes | 0 comments | u/someone | r/Python |" +:+ nl +:+ nl).
Proof. vm_compute. split; reflexivity. Qed.

Lemma weekly_pins_at_most_five_witness :
  exists s2 kept,
    weekly_subreddit example_replies example_shorten "r/Python" state_digest
    = (s2, Returns tt)
    /\ trace (world s2)
       = trace (world (fst digest_sent))
         ++ [Pins example_channel; Unpin (old_pin 1); Pin digest_message]
    /\ pinned (world s2) = digest_message :: kept
    /\ kept `sublist_of` [old_pin 5; old_pin 4; old_pin 3; old_pin 2]
    /\ (length (pinned (world s2)) <= 5)%nat
    /\ (5%nat = 5%nat ->
        exists oldest,
          Some (old_pin 1) = Some oldest /\ [old_pin 1] = [oldest]).
Proof.
  apply (weekly_pins_at_most_five example_replies example_shorten "r/Python"
           state_digest (fst digest_sent) example_channel digest_message).
  - reflexivity.
  - reflexivity.
  - vm_compute. reflexivity.
Defined.

(** ** What a computation leaves alone *)

(** [m] never changes the part [f] of the state, however it ends. *)
Definition preserves {A X} (f : State -> X) (m : M A) : Prop :=
  forall s, f (fst (m s)) = f s.

Lemma preserves_bind {A B X} (f : State -> X) (m : M A) (k : A -> M B) :
  preserves f m -> (forall a, preserves f (k a)) -> preserves f (bind m k).
Proof.
  intros Hm Hk s. unfold bind. specialize (Hm s).
  destruct (m s) as [s' [a|e]]; simpl in *; [|exact Hm].
  now rewrite Hk.
Qed.

Lemma preserves_for_each {A X} (f : State -> X) (l : list A) (body : A -> M unit) :
  (forall x, preserves f (body x)) -> preserves f (for_each l body).
Proof.
  intros Hbody. induction l as [|x l IH]; [intros s; reflexivity|].
  simpl. apply preserves_bind; [apply Hbody|intros _; exact IH].
Qed.

Ltac preserves_step :=
  match goal with
  | |- preserves _ (bind _ _) => apply preserves_bind; [|intro]
  | |- preserves _ (for_each _ _) => apply preserves_for_each; intro
  | |- preserves _ (match ?x with _ => _ end) => destruct x
  | |- preserves _ _ => solve [intros ?; reflexivity]
  | |- preserves _ _ => solve [auto with preserves]
  end.

Ltac preserves_tac :=
  unfold attribute, emit, http_post, http_get, http_head, next_response, json,
    children_of, access_token_of, refresh_token_of, sleep, random_choice,
    channel_send, channel_pins, message_unpin, message_pin, utcnow;
  repeat preserves_step.

Create HintDb preserves.

(** The refresh token of the cog and the tasks of the event loop. *)
Definition kept (s : State) : option string * Loop :=
  (refresh_token (self s), loop (world s)).

Lemma fetch_attempts_kept url amount params n :
  preserves kept (fetch_attempts url amount params n).
Proof.
  induction n as [|n IH]; simpl; [intros s; reflexivity|]. preserves_tac.
Qed.

Lemma fetch_posts_kept route amount params :
  preserves kept (fetch_posts route amount params).
Proof. unfold fetch_posts. preserves_tac. apply fetch_attempts_kept. Qed.

#[local] Hint Resolve fetch_posts_kept : preserves.

Lemma unpin_oldest_kept rounds :
  forall pins, preserves kept (unpin_oldest rounds pins).
Proof.
  induction rounds as [|rounds IH]; intros pins; cbn [unpin_oldest];
    [intros s; reflexivity|].
  preserves_tac.
Qed.

#[local] Hint Resolve unpin_oldest_kept : preserves.

Lemma refresh_access_token_kept : preserves kept refresh_access_token.
Proof. unfold refresh_access_token. preserves_tac. Qed.

Section Lifetime.

Variable RedditConfig : RedditConfigT.
Variable ERROR_REPLIES : list string.
Variable shorten : string -> nat -> string.

Lemma scan_new_posts_kept last_id posts :
  preserves kept (scan_new_posts shorten last_id posts).
Proof.
  induction posts as [|post posts IH]; simpl; [intros s; reflexivity|].
  preserves_tac.
Qed.

Lemma poll_new_posts_cycle_kept :
  preserves kept (poll_new_posts_cycle RedditConfig shorten).
Proof.
  pose proof scan_new_posts_kept as Hscan.
  unfold poll_new_posts_cycle, poll_subreddit, probe_and_fetch,
    relay_new_posts.
  preserves_tac.
Qed.

Lemma poll_top_weekly_cycle_kept :
  preserves kept (poll_top_weekly_cycle RedditConfig ERROR_REPLIES shorten).
Proof.
  unfold poll_top_weekly_cycle, weekly_subreddit, maintain_pins,
    send_top_posts, lift.
  preserves_tac.
Qed.

Lemma iteration_kept t n :
  (t = RefreshTask -> n <> O) ->
  preserves kept (iteration RedditConfig ERROR_REPLIES shorten t n).
Proof.
  intros Hn. destruct t; simpl.
  - destruct n as [|n]; [now destruct Hn|].
    apply preserves_bind; [apply refresh_access_token_kept|].
    intros _. preserves_tac.
  - apply poll_new_posts_cycle_kept.
  - apply poll_top_weekly_cycle_kept.
Qed.

(** Once [get_tokens] has run, no step of any task writes the refresh
    token, and [get_tokens] is not run again. *)
Lemma step_task_refresh_token t s :
  refresh_status (loop (world s)) <> Alive 0 ->
  let s' := step_task RedditConfig ERROR_REPLIES shorten t s in
  refresh_token (self s') = refresh_token (self s)
  /\ refresh_status (loop (world s')) <> Alive 0.
Proof.
  intros Hstarted. unfold step_task.
  destruct (task_status t (loop (world s))) as [|n|e] eqn:Hst;
    [now split| |now split].
  assert (Hn : t = RefreshTask -> n <> O).
  { intros -> ->. simpl in Hst. congruence. }
  pose proof (iteration_kept t n Hn s) as Hkept. unfold kept in Hkept.
  destruct (iteration _ _ _ t n s) as [s1 [[]|e]]; simpl in Hkept;
    injection Hkept as Htok Hloop.
  - simpl. rewrite Hloop. split; [exact Htok|].
    destruct t; simpl; congruence.
  - destruct (restarts t n e) eqn:Hre; simpl; rewrite Hloop;
      (split; [exact Htok|]).
    + destruct t, n; simpl; discriminate.
    + destruct t; simpl; congruence.
Qed.

Lemma run_event_loop_refresh_token schedule :
  forall s,
    refresh_status (loop (world s)) <> Alive 0 ->
    refresh_token (self (run_event_loop RedditConfig ERROR_REPLIES shorten schedule s))
    = refresh_token (self s).
Proof.
  induction schedule as [|t schedule IH]; intros s Hstarted; [reflexivity|].
  destruct (step_task_refresh_token t s Hstarted) as [Htok Hst].
  change (run_event_loop RedditConfig ERROR_REPLIES shorten (t :: schedule) s)
    with (run_event_loop RedditConfig ERROR_REPLIES shorten schedule
            (step_task RedditConfig ERROR_REPLIES shorten t s)).
  rewrite IH by exact Hst. exact Htok.
Qed.

(** C10.  One execution of [refresh_access_token], however it ends,
    changes no field of the cog other than [access_token] and [headers]; if
    it sends a request at all, it is one POST that carries the stored refresh
    token; and once [get_tokens] has run, no schedule of the three tasks
    ever changes the stored refresh token. *)
Theorem refresh_token_is_never_replaced (s : State) :
  let s' := fst (refresh_access_token s) in
  (self s' = self s
   \/ exists access,
        self s' = set_headers (Some (bearer_headers access))
                    (set_access_token (Some access) (self s)))
  /\ refresh_token (self s') = refresh_token (self s)
  /\ (trace (world s') = trace (world s)
      \/ exists auth token,
           refresh_token (self s) = Some token
           /\ trace (world s')
              = trace (world s)
                ++ [HttpPost (URL +:+ "/api/v1/access_token")
                      [("Authorization", HAuth auth)] None
                      [("grant_type", "refresh_token");
                       ("refresh_token", token)]])
  /\ (forall schedule,
        refresh_status (loop (world s)) <> Alive 0 ->
        refresh_token
          (self (run_event_loop RedditConfig ERROR_REPLIES shorten schedule s))
        = refresh_token (self s)).
Proof.
  cbv zeta.
  assert (Hrun : fst (refresh_access_token s) = s).
  { unfold refresh_access_token, attribute, http_post, bind, get_self,
      ret, raise.
    simpl. destruct (client_auth (self s)); simpl; [|reflexivity].
    destruct (refresh_token (self s)); reflexivity. }
  rewrite Hrun. split; [now left|]. split; [reflexivity|]. split; [now left|].
  - intros schedule. apply run_event_loop_refresh_token.
Qed.

End Lifetime.

Definition state_refresh : State :=
  {| self := example_cog ∅;
     world := set_loop {| refresh_status := Alive 1;
                          new_posts_status := Alive 0;
                          top_weekly_status := Alive 0 |}
                (example_world [token_reply "fresh" "other"] []) |}.

Lemma refresh_token_is_never_replaced_witness :
  refresh_status (loop (world state_refresh)) <> Alive 0
  /\ refresh_token (self (fst (refresh_access_token state_refresh)))
     = refresh_token (self state_refresh)
  /\ refresh_token
       (self (run_event_loop example_config example_replies example_shorten
                [RefreshTask; NewPostsTask; RefreshTask; TopWeeklyTask]
                state_refresh))
     = refresh_token (self state_refresh).
Proof.
  assert (Hstarted : refresh_status (loop (world state_refresh)) <> Alive 0)
    by discriminate.
  destruct (refresh_token_is_never_replaced example_config example_replies
              example_shorten state_refresh) as (_ & Hone & _ & Hall).
  split; [exact Hstarted|]. split; [exact Hone|].
  apply Hall. exact Hstarted.
Defined.

Example refresh_is_refused :
  refresh_access_token state_refresh = (state_refresh, Raises TypeError).
Proof. reflexivity. Qed.

(** ** A failed bootstrap *)

(** From [s] to [s'] nothing was fetched and no request was answered. *)
Definition quiet (s s' : State) : Prop :=
  self s' = self s
  /\ net (world s') = net (world s)
  /\ requests (world s') = requests (world s)
  /\ loop (world s') = loop (world s)
  /\ exists evs, trace (world s') = trace (world s) ++ evs
                 /\ Forall (fun e => is_fetch e = false) evs.

Ltac quiet_tac :=
  repeat split;
  eexists; (split; [first [ symmetry; apply app_nil_r
                          | reflexivity
                          | rewrite <- ?app_assoc; reflexivity ]
                   | repeat constructor ]).

Section Bootstrap.

Variable RedditConfig : RedditConfigT.
Variable ERROR_REPLIES : list string.
Variable shorten : string -> nat -> string.

Lemma poll_new_posts_cycle_quiet s :
  headers (self s) = None ->
  quiet s (fst (poll_new_posts_cycle RedditConfig shorten s)).
Proof.
  intros Hh. unfold poll_new_posts_cycle.
  destruct (subreddits RedditConfig) as [|subreddit rest].
  - simpl. quiet_tac.
  - unfold for_each, poll_subreddit, probe_and_fetch, sleep, emit, attribute,
      bind, get_self, modify_world.
    simpl. rewrite Hh. simpl. quiet_tac.
Qed.

Lemma poll_top_weekly_cycle_quiet s :
  headers (self s) = None ->
  quiet s (fst (poll_top_weekly_cycle RedditConfig ERROR_REPLIES shorten s)).
Proof.
  intros Hh. unfold poll_top_weekly_cycle, utcnow, lift.
  unfold bind at 1. unfold bind at 1, get_world, ret at 1. cbv beta iota.
  unfold bind at 1.
  destruct (until_monday _) as [delay|e]; [|simpl; quiet_tac].
  destruct (subreddits RedditConfig) as [|subreddit rest].
  - simpl. quiet_tac.
  - unfold for_each, weekly_subreddit, send_top_posts, fetch_posts,
      MAX_FETCH_RETRIES, fetch_attempts, sleep, emit, attribute, bind,
      get_self, modify_world.
    simpl. destruct (reddit_channel (self s)) as [channel|]; simpl.
    + rewrite Hh. simpl. quiet_tac.
    + quiet_tac.
Qed.

Lemma refresh_access_token_quiet s :
  refresh_token (self s) = None ->
  quiet s (fst ((run refresh_access_token; sleep (seconds 3564)) s)).
Proof.
  intros Htok. unfold refresh_access_token, attribute, bind, get_self.
  simpl. destruct (client_auth (self s)); simpl; [rewrite Htok; simpl|];
    quiet_tac.
Qed.

Lemma get_tokens_failed s :
  status_ok (net (world s) (requests (world s))) = false ->
  let s' := fst (get_tokens RedditConfig s) in
  headers (self s') = headers (self s)
  /\ refresh_token (self s') = refresh_token (self s)
  /\ loop (world s') = loop (world s)
  /\ exists evs, trace (world s') = trace (world s) ++ evs
                 /\ Forall (fun e => is_fetch e = false) evs.
Proof.
  intros Hbad. unfold get_tokens, http_post, next_response, emit, bind,
    get_world, modify_world, modify_self, ret.
  simpl. rewrite Hbad. simpl. quiet_tac.
Qed.

(** The cog has no headers and no refresh token, and if [get_tokens] is
    still to run, the reply it will get is not a success. *)
Definition unauthenticated (s : State) : Prop :=
  headers (self s) = None
  /\ refresh_token (self s) = None
  /\ (refresh_status (loop (world s)) = Alive 0 ->
      status_ok (net (world s) (requests (world s))) = false).

Definition no_fetch_since (s s' : State) : Prop :=
  exists evs, trace (world s') = trace (world s) ++ evs
              /\ Forall (fun e => is_fetch e = false) evs.

Lemma no_fetch_since_trans s1 s2 s3 :
  no_fetch_since s1 s2 -> no_fetch_since s2 s3 -> no_fetch_since s1 s3.
Proof.
  intros (evs1 & H1 & F1) (evs2 & H2 & F2). exists (evs1 ++ evs2). split.
  - rewrite H2, H1. now rewrite app_assoc.
  - apply Forall_app. now split.
Qed.

Lemma quiet_backoff s s1 :
  quiet s s1 -> quiet s (fst (backoff_pause s1)).
Proof.
  intros (Hself & Hnet & Hreq & Hloop & evs & Hev & Hall).
  unfold backoff_pause, sleep, emit, bind, get_world, modify_world, ret.
  simpl. repeat split; try assumption.
  exists (evs ++ [Sleep (Z.of_nat (dice (world s1) (rolls (world s1))))]).
  split; [now rewrite Hev, app_assoc|].
  apply Forall_app. split; [exact Hall|]. now repeat constructor.
Qed.

Lemma finish_quiet t st s s0 :
  quiet s0 s ->
  let s' := finish t st s in
  self s' = self s0 /\ net (world s') = net (world s0)
  /\ requests (world s') = requests (world s0)
  /\ loop (world s') = set_task_status t st (loop (world s0))
  /\ no_fetch_since s0 s'.
Proof.
  intros (Hself & Hnet & Hreq & Hloop & Hev). simpl. now rewrite Hloop.
Qed.

Lemma step_task_unauthenticated t s :
  unauthenticated s ->
  let s' := step_task RedditConfig ERROR_REPLIES shorten t s in
  unauthenticated s' /\ no_fetch_since s s'.
Proof.
  intros (Hh & Htok & Hboot). unfold step_task.
  destruct (task_status t (loop (world s))) as [|n|e] eqn:Hst.
  1,3: (split; [now repeat split|]; exists []; split;
        [now rewrite app_nil_r|constructor]).
  assert (Hquiet : forall s1 st,
            quiet s s1 -> (t = RefreshTask -> st <> Alive 0) ->
            unauthenticated (finish t st s1)
            /\ no_fetch_since s (finish t st s1)).
  { intros s1 st Hq Hne.
    destruct (finish_quiet t st s1 s Hq) as (Hs & Hn & Hr & Hl & Hev).
    split; [|exact Hev]. unfold unauthenticated.
    rewrite Hs, Hn, Hr, Hl. split; [exact Hh|]. split; [exact Htok|].
    destruct t; simpl; [intros Hz; now destruct (Hne eq_refl)|exact Hboot..]. }
  destruct t; cbn [iteration].
  - simpl in Hst. destruct n as [|n].
    + destruct (get_tokens_failed s (Hboot Hst))
        as (Hh' & Htok' & Hloop' & Hev).
      destruct (get_tokens RedditConfig s) as [s1 [[]|e]];
        cbn [restarts]; simpl in *;
        (split; [|exact Hev]); unfold unauthenticated; simpl;
        rewrite Hh', Htok'; repeat split; try assumption; discriminate.
    + pose proof (refresh_access_token_quiet s Htok) as Hq.
      destruct ((run refresh_access_token; sleep (seconds 3564)) s)
        as [s1 [[]|e]]; simpl in Hq.
      * apply Hquiet; [exact Hq|discriminate].
      * destruct (restarts RefreshTask (S n) e); apply Hquiet;
          try discriminate; [apply quiet_backoff|]; exact Hq.
  - pose proof (poll_new_posts_cycle_quiet s Hh) as Hq.
    destruct (poll_new_posts_cycle RedditConfig shorten s) as [s1 [[]|e]];
      cbn [restarts]; simpl in Hq; apply Hquiet; try exact Hq; discriminate.
  - pose proof (poll_top_weekly_cycle_quiet s Hh) as Hq.
    destruct (poll_top_weekly_cycle RedditConfig ERROR_REPLIES shorten s)
      as [s1 [[]|e]];
      cbn [restarts]; simpl in Hq; apply Hquiet; try exact Hq; discriminate.
Qed.

Lemma run_event_loop_unauthenticated schedule :
  forall s,
    unauthenticated s ->
    let s' := run_event_loop RedditConfig ERROR_REPLIES shorten schedule s in
    unauthenticated s' /\ no_fetch_since s s'.
Proof.
  induction schedule as [|t schedule IH]; intros s Hs.
  - simpl. split; [exact Hs|]. exists []. split;
      [now rewrite app_nil_r|constructor].
  - destruct (step_task_unauthenticated t s Hs) as [Hs1 Hev1].
    destruct (IH _ Hs1) as [Hs2 Hev2].
    change (run_event_loop RedditConfig ERROR_REPLIES shorten (t :: schedule) s)
      with (run_event_loop RedditConfig ERROR_REPLIES shorten schedule
              (step_task RedditConfig ERROR_REPLIES shorten t s)).
    cbv zeta. split; [exact Hs2|].
    exact (no_fetch_since_trans _ _ _ Hev1 Hev2).
Qed.

(** [init_reddit_polling] on the newly made cog creates the tasks and
    sends nothing. *)
Lemma init_reddit_polling_fresh w :
  let s := fst (init_reddit_polling {| self := Cog_init; world := w |}) in
  headers (self s) = None /\ refresh_token (self s) = None
  /\ net (world s) = net w /\ requests (world s) = requests w
  /\ trace (world s) = trace w
  /\ refresh_status (loop (world s)) = Alive 0.
Proof.
  unfold init_reddit_polling, create_task, bind, get_world, get_self,
    modify_self, modify_world, ret.
  simpl. destruct (channel_reply w); simpl; repeat split.
Qed.

(** C7.  When the reply to the first request, the one [get_tokens] sends,
    is not a success, then whatever the order in which the event loop runs
    the three tasks that [init_reddit_polling] created, and for however long,
    no GET or HEAD request is ever issued: the cog never gets its headers,
    and a polling round ends in [AttributeError] before its request. *)
Theorem failed_bootstrap_no_fetch (w : World) (schedule : list Task) :
  status_ok (net w (requests w)) = false ->
  let s0 := fst (init_reddit_polling {| self := Cog_init; world := w |}) in
  let s := run_event_loop RedditConfig ERROR_REPLIES shorten schedule s0 in
  headers (self s) = None
  /\ exists evs, trace (world s) = trace w ++ evs
                 /\ Forall (fun e => is_fetch e = false) evs.
Proof.
  intros Hbad s0 s.
  destruct (init_reddit_polling_fresh w)
    as (Hh & Htok & Hnet & Hreq & Htrace & Hst).
  fold s0 in Hh, Htok, Hnet, Hreq, Htrace, Hst.
  assert (Hs0 : unauthenticated s0).
  { split; [exact Hh|]. split; [exact Htok|]. intros _.
    now rewrite Hnet, Hreq. }
  destruct (run_event_loop_unauthenticated schedule s0 Hs0)
    as [(Hh' & _) (evs & Hev & Hno)].
  fold s in Hh', Hev. split; [exact Hh'|].
  exists evs. split; [|exact Hno]. now rewrite Hev, Htrace.
Qed.

End Bootstrap.

Definition busy_schedule : list Task :=
  [NewPostsTask; RefreshTask; TopWeeklyTask; RefreshTask; NewPostsTask;
   TopWeeklyTask; RefreshTask].

Lemma failed_bootstrap_no_fetch_witness :
  let s0 := fst (init_reddit_polling
                   {| self := Cog_init; world := example_world [] [] |}) in
  let s := run_event_loop example_config example_replies example_shorten
             busy_schedule s0 in
  headers (self s) = None
  /\ exists evs, trace (world s) = trace (example_world [] []) ++ evs
                 /\ Forall (fun e => is_fetch e = false) evs.
Proof.
  apply (failed_bootstrap_no_fetch example_config example_replies
           example_shorten (example_world [] []) busy_schedule).
  reflexivity.
Defined.

(** What that run looks like: the new-post task dies first, the token
    request is answered by an error and the cog is removed, and the other
    two tasks die at their next turn. *)
Example failed_bootstrap_run :
  let s0 := fst (init_reddit_polling
                   {| self := Cog_init; world := example_world [] [] |}) in
  let s := run_event_loop example_config example_replies example_shorten
             busy_schedule s0 in
  trace (world s)
  = [Sleep 10000000;
     HttpPost "https://www.reddit.com/api/v1/access_token"
       [("User-Agent", HStr USER_AGENT)]
       (Some {| login := "client"; password := "secret" |})
       [("grant_type", "client_credentials"); ("duration", "permanent")];
     RemoveCog "Reddit";
     Sleep 388790000000;
     Typing example_channel]
  /\ loop (world s)
     = {| refresh_status := Failed AttributeError;
          new_posts_status := Failed AttributeError;
          top_weekly_status := Failed AttributeError |}.
Proof. vm_compute. split; reflexivity. Qed.

(** * Further properties of the cog *)

(** ** What a computation may emit *)

(** Whatever [m] adds to the trace satisfies [P]. *)
Definition emits_only {A} (P : Event -> Prop) (m : M A) : Prop :=
  forall s, exists evs,
    trace (world (fst (m s))) = trace (world s) ++ evs /\ Forall P evs.

Lemma emits_only_bind {A B} (P : Event -> Prop) (m : M A) (k : A -> M B) :
  emits_only P m -> (forall a, emits_only P (k a)) -> emits_only P (bind m k).
Proof.
  intros Hm Hk s. unfold bind. destruct (Hm s) as (evs & Hev & Hall).
  destruct (m s) as [s' [a|e]]; simpl in *; [|now exists evs].
  destruct (Hk a s') as (evs' & Hev' & Hall'). exists (evs ++ evs'). split.
  - rewrite Hev', Hev. now rewrite app_assoc.
  - apply Forall_app. now split.
Qed.

Lemma emits_only_for_each {A} (P : Event -> Prop) (l : list A)
    (body : A -> M unit) :
  (forall x, emits_only P (body x)) -> emits_only P (for_each l body).
Proof.
  intros Hbody. induction l as [|x l IH].
  - intros s. exists []. split; [symmetry; apply app_nil_r|constructor].
  - simpl. apply emits_only_bind; [apply Hbody|intros _; exact IH].
Qed.

Lemma emits_only_emit (P : Event -> Prop) (e : Event) :
  P e -> emits_only P (emit e).
Proof. intros He s. exists [e]. split; [reflexivity|now constructor]. Qed.

Lemma emits_only_silent {A} (P : Event -> Prop) (m : M A) :
  (forall s, trace (world (fst (m s))) = trace (world s)) -> emits_only P m.
Proof.
  intros Hm s. exists []. rewrite Hm. split;
    [symmetry; apply app_nil_r|constructor].
Qed.

Create HintDb emits.

Ltac emits_step :=
  match goal with
  | |- emits_only _ (bind _ _) => apply emits_only_bind; [|intro]
  | |- emits_only _ (for_each _ _) => apply emits_only_for_each; intro
  | |- emits_only _ (emit _) => apply emits_only_emit; reflexivity
  | |- emits_only _ (match ?x with _ => _ end) => destruct x
  | |- emits_only _ _ =>
      solve [apply emits_only_silent; intros ?; reflexivity]
  | |- emits_only _ _ => solve [auto with emits]
  end.

Ltac emits_tac :=
  unfold attribute, http_post, http_get, http_head, next_response, json,
    children_of, access_token_of, refresh_token_of, sleep, random_choice,
    channel_send, channel_pins, message_unpin, message_pin, utcnow, lift;
  repeat emits_step.

(** ** More on [fetch_posts] *)

Definition is_get_or_sleep (e : Event) : bool :=
  match e with
  | HttpGet _ _ _ | Sleep _ => true
  | _ => false
  end.

Lemma fetch_attempts_emits url amount params n :
  emits_only (fun e => is_get_or_sleep e = true)
    (fetch_attempts url amount params n).
Proof.
  induction n as [|n IH]; simpl; emits_tac.
Qed.

(** What an attempt loop leaves alone in the world, and how many replies it
    can use up. *)
Lemma fetch_attempts_world url amount params n :
  forall s,
    let s' := fst (fetch_attempts url amount params n s) in
    (requests (world s) <= requests (world s') <= requests (world s) + n)%nat
    /\ net (world s') = net (world s)
    /\ pinned (world s') = pinned (world s)
    /\ sent (world s') = sent (world s)
    /\ loop (world s') = loop (world s).
Proof.
  induction n as [|n IH]; intros s; [simpl; repeat split; lia|]. simpl.
  unfold bind at 1. unfold attribute, bind, get_self.
  destruct (headers (self s)); simpl; [|repeat split; lia].
  destruct (status_ok _).
  - unfold json. destruct (negb _); simpl; [repeat split; lia|].
    destruct (body _); simpl; repeat split; lia.
  - match goal with
    | |- context [fetch_attempts url amount params n ?st] =>
        destruct (IH st) as (Hreq & Hnet & Hpin & Hsent & Hloop)
    end.
    simpl in *. rewrite Hnet, Hpin, Hsent, Hloop. repeat split; lia.
Qed.

(** X1.  Without headers (the tokens were never obtained) a fetch with a
    valid amount raises [AttributeError] before any request. *)
Theorem fetch_posts_without_headers (route : string) (amount : Z)
    (params : list (string * string)) (s : State) :
  0 < amount <= 25 ->
  headers (self s) = None ->
  fetch_posts route amount params s = (s, Raises AttributeError).
Proof.
  intros [Hlo Hhi] Hh. unfold fetch_posts.
  destruct (Z.leb_spec amount 25); [|lia].
  destruct (Z.ltb_spec 0 amount); [|lia]. cbn [negb andb].
  unfold MAX_FETCH_RETRIES. simpl. unfold bind at 1.
  unfold attribute, bind, get_self. now rewrite Hh.
Qed.

Lemma fetch_posts_without_headers_witness :
  fetch_posts "r/Python/new" 25 [] {| self := Cog_init; world := example_world [] [] |}
  = ({| self := Cog_init; world := example_world [] [] |}, Raises AttributeError).
Proof.
  apply (fetch_posts_without_headers "r/Python/new" 25 []
           {| self := Cog_init; world := example_world [] [] |}).
  - lia.
  - reflexivity.
Defined.

(** X3.  However it ends, a fetch leaves the cog, the pins and the message
    counter alone, uses up at most three replies, and adds nothing to the
    trace but GET requests and pauses. *)
Theorem fetch_posts_footprint (route : string) (amount : Z)
    (params : list (string * string)) (s : State) :
  let s' := fst (fetch_posts route amount params s) in
  self s' = self s
  /\ (requests (world s) <= requests (world s') <= requests (world s) + 3)%nat
  /\ pinned (world s') = pinned (world s)
  /\ sent (world s') = sent (world s)
  /\ exists evs, trace (world s') = trace (world s) ++ evs
                 /\ Forall (fun e => is_get_or_sleep e = true) evs.
Proof.
  cbv zeta. split; [apply fetch_posts_self|].
  unfold fetch_posts. destruct (negb _).
  - simpl. repeat split; try lia. exists []. split;
      [symmetry; apply app_nil_r|constructor].
  - destruct (fetch_attempts_world (OAUTH_URL +:+ "/" +:+ route) amount params
                MAX_FETCH_RETRIES s) as (Hreq & _ & Hpin & Hsent & _).
    unfold MAX_FETCH_RETRIES in *. repeat split; try assumption; try lia.
    apply fetch_attempts_emits.
Qed.

Lemma fetch_attempts_succeeds_after url amount params h children (k : nat) :
  0 < amount ->
  forall (n : nat) (s : State),
    (k < n)%nat ->
    headers (self s) = Some h ->
    (forall i, (i < k)%nat ->
       status_ok (net (world s) (requests (world s) + i)%nat) = false) ->
    status_ok (net (world s) (requests (world s) + k)%nat) = true ->
    body (net (world s) (requests (world s) + k)%nat) = Listing children ->
    let get := HttpGet url h params in
    exists s',
      fetch_attempts url amount params n s
      = (s', Returns (take (Z.to_nat amount) children))
      /\ self s' = self s
      /\ requests (world s') = (requests (world s) + k + 1)%nat
      /\ trace (world s')
         = trace (world s) ++ concat (replicate k [get; Sleep 3000000]) ++ [get]
      /\ clock (world s') = clock (world s) + Z.of_nat k * 3000000.
Proof.
  intros Hamount. induction k as [|k IH]; intros n s Hk Hh Hbad Hok Hbody get.
  - destruct n as [|n]; [lia|]. rewrite Nat.add_0_r in Hok, Hbody. simpl.
    unfold bind at 1. unfold attribute, bind, get_self. rewrite Hh. simpl.
    rewrite Hok. unfold json.
    unfold status_ok in Hok. apply andb_true_iff in Hok as [_ Hct].
    rewrite Hct. simpl. rewrite Hbody. simpl.
    unfold ret, slice_to. destruct (Z.leb_spec 0 amount); [|lia].
    eexists. split; [reflexivity|]. simpl. repeat split; lia.
  - destruct n as [|n]; [lia|].
    rewrite (fetch_attempts_failed _ _ _ _ s h Hh).
    2:{ specialize (Hbad 0%nat). rewrite Nat.add_0_r in Hbad. apply Hbad. lia. }
    destruct (IH n (after_failed_attempt url h params s))
      as (s' & Hrun & Hself & Hreq & Htrace & Hclock).
    + lia.
    + exact Hh.
    + intros i Hi. simpl. rewrite <- Nat.add_succ_r. apply Hbad. lia.
    + simpl. rewrite <- Nat.add_succ_r. exact Hok.
    + simpl. rewrite <- Nat.add_succ_r. exact Hbody.
    + exists s'. split; [exact Hrun|]. simpl in *. split; [exact Hself|].
      split; [lia|]. split.
      * rewrite Htrace. rewrite <- !app_assoc. reflexivity.
      * rewrite Hclock. unfold seconds. lia.
Qed.

(** X2.  When the first [k] replies, [k] below three, are no success and
    the next one is a proper listing, the fetch returns that listing cut to
    [amount] items after [k + 1] GET requests and [k] pauses of three
    seconds. *)
Theorem fetch_posts_retries_until_success (route : string) (amount : Z)
    (params : list (string * string)) (s : State) (h : Headers)
    (children : list Post) (k : nat) :
  0 < amount <= 25 ->
  (k < 3)%nat ->
  headers (self s) = Some h ->
  (forall i, (i < k)%nat ->
     status_ok (net (world s) (requests (world s) + i)%nat) = false) ->
  status_ok (net (world s) (requests (world s) + k)%nat) = true ->
  body (net (world s) (requests (world s) + k)%nat) = Listing children ->
  let get := HttpGet (OAUTH_URL +:+ "/" +:+ route) h params in
  exists s',
    fetch_posts route amount params s
    = (s', Returns (take (Z.to_nat amount) children))
    /\ self s' = self s
    /\ requests (world s') = (requests (world s) + k + 1)%nat
    /\ trace (world s')
       = trace (world s) ++ concat (replicate k [get; Sleep 3000000]) ++ [get]
    /\ clock (world s') = clock (world s) + Z.of_nat k * 3000000.
Proof.
  intros [Hlo Hhi] Hk Hh Hbad Hok Hbody. unfold fetch_posts.
  destruct (Z.leb_spec amount 25); [|lia].
  destruct (Z.ltb_spec 0 amount); [|lia]. cbn [negb andb].
  now apply fetch_attempts_succeeds_after.
Qed.

Lemma fetch_posts_retries_until_success_witness :
  exists s',
    fetch_posts "r/Python/new" 2 []
      (example_state ∅ [error_reply; error_reply; listing_reply page_432])
    = (s', Returns [example_post "4"; example_post "3"])
    /\ self s' = example_cog ∅
    /\ requests (world s') = 3%nat
    /\ trace (world s')
       = (let get := HttpGet "https://oauth.reddit.com/r/Python/new"
                       (bearer_headers "access") [] in
          [get; Sleep 3000000; get; Sleep 3000000; get])
    /\ clock (world s')
       = clock (example_world [] []) + 2 * 3000000.
Proof.
  apply (fetch_posts_retries_until_success "r/Python/new" 2 []
           (example_state ∅ [error_reply; error_reply; listing_reply page_432])
           (bearer_headers "access") page_432 2).
  - lia.
  - lia.
  - reflexivity.
  - intros i Hi. simpl. now destruct i as [|[|i]]; [| |lia].
  - reflexivity.
  - reflexivity.
Defined.

(** X4.  A reply with status 200 and JSON content type ends the fetch
    after that one GET, whatever its document turns out to be: the fetch
    returns or raises, but it neither pauses nor asks again. *)
Theorem fetch_posts_answer_not_retried (route : string) (amount : Z)
    (params : list (string * string)) (s : State) (h : Headers) :
  0 < amount <= 25 ->
  headers (self s) = Some h ->
  status_ok (net (world s) (requests (world s))) = true ->
  let s' := fst (fetch_posts route amount params s) in
  self s' = self s
  /\ requests (world s') = S (requests (world s))
  /\ trace (world s')
     = trace (world s) ++ [HttpGet (OAUTH_URL +:+ "/" +:+ route) h params]
  /\ clock (world s') = clock (world s).
Proof.
  intros [Hlo Hhi] Hh Hok. unfold fetch_posts.
  destruct (Z.leb_spec amount 25); [|lia].
  destruct (Z.ltb_spec 0 amount); [|lia]. cbn [negb andb].
  unfold MAX_FETCH_RETRIES. simpl.
  unfold bind at 1. unfold attribute, bind, get_self. rewrite Hh. simpl.
  rewrite Hok. unfold json.
  unfold status_ok in Hok. apply andb_true_iff in Hok as [_ Hct].
  rewrite Hct. simpl.
  destruct (body (net (world s) (requests (world s)))); simpl; repeat split.
Qed.

Lemma fetch_posts_answer_not_retried_witness :
  let s := example_state ∅ [token_reply "a" "b"] in
  let s' := fst (fetch_posts "r/Python/new" 25 [] s) in
  self s' = self s
  /\ requests (world s') = S (requests (world s))
  /\ trace (world s')
     = trace (world s)
       ++ [HttpGet (OAUTH_URL +:+ "/" +:+ "r/Python/new")
             (bearer_headers "access") []]
  /\ clock (world s') = clock (world s).
Proof.
  apply (fetch_posts_answer_not_retried "r/Python/new" 25 []
           (example_state ∅ [token_reply "a" "b"]) (bearer_headers "access")).
  - lia.
  - reflexivity.
  - reflexivity.
Defined.

(** ** More on the token life cycle *)

Section Tokens.

Variable RedditConfig : RedditConfigT.

Definition token_request : Event :=
  HttpPost (URL +:+ "/api/v1/access_token") [("User-Agent", HStr USER_AGENT)]
    (Some {| login := client_id RedditConfig; password := secret RedditConfig |})
    [("grant_type", "client_credentials"); ("duration", "permanent")].

(** X5.  A successful bootstrap, one POST with the application's identity,
    stores both tokens and the bearer headers derived from the access token,
    without removing the cog. *)
Theorem get_tokens_success (s : State) (access refresh : string) :
  status_ok (net (world s) (requests (world s))) = true ->
  body (net (world s) (requests (world s)))
  = Tokens (Some access) (Some refresh) ->
  exists s',
    get_tokens RedditConfig s = (s', Returns tt)
    /\ self s'
       = set_headers (Some (bearer_headers access))
           (set_refresh_token (Some refresh)
              (set_access_token (Some access)
                 (set_client_auth
                    (Some {| login := client_id RedditConfig;
                             password := secret RedditConfig |}) (self s))))
    /\ trace (world s') = trace (world s) ++ [token_request]
    /\ requests (world s') = S (requests (world s)).
Proof.
  intros Hok Hbody. unfold get_tokens, http_post, next_response, emit, json,
    bind, get_world, modify_world, modify_self, ret.
  simpl. rewrite Hok.
  unfold status_ok in Hok. apply andb_true_iff in Hok as [_ Hct].
  rewrite Hct. simpl. rewrite Hbody. simpl.
  eexists. split; [reflexivity|]. repeat split.
Qed.

(** X6.  A success reply that carries an access token but no refresh token
    ends the bootstrap in [KeyError] half way: the access token is stored
    already, the refresh token and the headers are not. *)
Theorem get_tokens_without_refresh_token (s : State) (access : string) :
  status_ok (net (world s) (requests (world s))) = true ->
  body (net (world s) (requests (world s))) = Tokens (Some access) None ->
  exists s',
    get_tokens RedditConfig s = (s', Raises KeyError)
    /\ self s'
       = set_access_token (Some access)
           (set_client_auth
              (Some {| login := client_id RedditConfig;
                       password := secret RedditConfig |}) (self s))
    /\ headers (self s') = headers (self s)
    /\ refresh_token (self s') = refresh_token (self s)
    /\ trace (world s') = trace (world s) ++ [token_request].
Proof.
  intros Hok Hbody. unfold get_tokens, http_post, next_response, emit, json,
    bind, get_world, modify_world, modify_self, ret.
  simpl. rewrite Hok.
  unfold status_ok in Hok. apply andb_true_iff in Hok as [_ Hct].
  rewrite Hct. simpl. rewrite Hbody. simpl.
  eexists. split; [reflexivity|]. repeat split.
Qed.

(** X7.  A bootstrap whose reply is no success does not raise: it asks the
    bot to remove the cog and returns, having stored the client identity and
    nothing else. *)
Theorem get_tokens_failure (s : State) :
  status_ok (net (world s) (requests (world s))) = false ->
  exists s',
    get_tokens RedditConfig s = (s', Returns tt)
    /\ self s'
       = set_client_auth
           (Some {| login := client_id RedditConfig;
                    password := secret RedditConfig |}) (self s)
    /\ trace (world s') = trace (world s) ++ [token_request; RemoveCog "Reddit"]
    /\ requests (world s') = S (requests (world s)).
Proof.
  intros Hbad. unfold get_tokens, http_post, next_response, emit, bind,
    get_world, modify_world, modify_self, ret.
  simpl. rewrite Hbad. simpl.
  eexists. split; [reflexivity|]. simpl. rewrite <- app_assoc. repeat split.
Qed.

End Tokens.

Definition state_fresh (replies : list Response) : State :=
  {| self := Cog_init; world := example_world replies [] |}.

Lemma get_tokens_success_witness :
  exists s',
    get_tokens example_config (state_fresh [token_reply "access" "refresh"])
    = (s', Returns tt)
    /\ self s'
       = set_headers (Some (bearer_headers "access"))
           (set_refresh_token (Some "refresh")
              (set_access_token (Some "access")
                 (set_client_auth
                    (Some {| login := "client"; password := "secret" |})
                    Cog_init)))
    /\ trace (world s') = [token_request example_config]
    /\ requests (world s') = 1%nat.
Proof.
  apply (get_tokens_success example_config
           (state_fresh [token_reply "access" "refresh"]) "access" "refresh");
    reflexivity.
Defined.

Definition access_only_reply : Response :=
  {| status := 200; content_type := "application/json";
     content_length := None; body := Tokens (Some "access") None |}.

Lemma get_tokens_without_refresh_token_witness :
  exists s',
    get_tokens example_config (state_fresh [access_only_reply])
    = (s', Raises KeyError)
    /\ self s'
       = set_access_token (Some "access")
           (set_client_auth
              (Some {| login := "client"; password := "secret" |}) Cog_init)
    /\ headers (self s') = None
    /\ refresh_token (self s') = None
    /\ trace (world s') = [token_request example_config].
Proof.
  apply (get_tokens_without_refresh_token example_config
           (state_fresh [access_only_reply]) "access"); reflexivity.
Defined.

Lemma get_tokens_failure_witness :
  exists s',
    get_tokens example_config (state_fresh []) = (s', Returns tt)
    /\ self s'
       = set_client_auth
           (Some {| login := "client"; password := "secret" |}) Cog_init
    /\ trace (world s') = [token_request example_config; RemoveCog "Reddit"]
    /\ requests (world s') = 1%nat.
Proof.
  apply (get_tokens_failure example_config (state_fresh [])). reflexivity.
Defined.

(** The refresh puts the [BasicAuth] object itself under "Authorization",
    so it never gets as far as sending. *)
Lemma refresh_access_token_refused (s : State) :
  exists e,
    refresh_access_token s = (s, Raises e)
    /\ (e = AttributeError \/ e = TypeError)
    /\ (forall auth token,
          client_auth (self s) = Some auth ->
          refresh_token (self s) = Some token -> e = TypeError).
Proof.
  unfold refresh_access_token, attribute, http_post, bind, get_self, ret,
    raise.
  simpl. destruct (client_auth (self s)) as [auth|]; simpl.
  - destruct (refresh_token (self s)) as [token|]; simpl.
    + exists TypeError. split; [reflexivity|]. split; [now right|reflexivity].
    + exists AttributeError. split; [reflexivity|]. split; [now left|].
      discriminate.
  - exists AttributeError. split; [reflexivity|]. split; [now left|].
    discriminate.
Qed.



(** ** More on the new-post poller *)

Lemma emits_only_weaken {A} (P Q : Event -> Prop) (m : M A) :
  (forall e, P e -> Q e) -> emits_only P m -> emits_only Q m.
Proof.
  intros HPQ Hm s. destruct (Hm s) as (evs & Hev & Hall). exists evs.
  split; [exact Hev|]. eapply Forall_impl; eassumption.
Qed.

(** The fields of the cog that only the token life cycle and
    [init_reddit_polling] write. *)
Definition credentials (c : Cog) :=
  (reddit_channel c, new_posts_task c, top_weekly_posts_task c,
   client_auth c, access_token c, refresh_token c, headers c).

Definition untouched_by_relay (s : State) :=
  (prev_lengths (self s), credentials (self s), pinned (world s),
   loop (world s), requests (world s)).

Definition untouched_by_poller (s : State) :=
  (credentials (self s), pinned (world s), loop (world s)).

(** What the poller may emit: pauses, HEAD and GET requests, messages. *)
Definition poller_event (e : Event) : bool :=
  match e with
  | Sleep _ | HttpHead _ _ | HttpGet _ _ _ | Send _ _ => true
  | _ => false
  end.

Lemma fetch_attempts_untouched_by_poller url amount params n :
  preserves untouched_by_poller (fetch_attempts url amount params n).
Proof.
  induction n as [|n IH]; simpl; [intros s; reflexivity|]. preserves_tac.
Qed.

Lemma fetch_posts_untouched_by_poller route amount params :
  preserves untouched_by_poller (fetch_posts route amount params).
Proof.
  unfold fetch_posts. preserves_tac. apply fetch_attempts_untouched_by_poller.
Qed.

Lemma fetch_posts_poller_events route amount params :
  emits_only (fun e => poller_event e = true) (fetch_posts route amount params).
Proof.
  unfold fetch_posts. destruct (negb _); [emits_tac|].
  eapply emits_only_weaken; [|apply fetch_attempts_emits].
  now intros [].
Qed.

Section Poller.

Variable RedditConfig : RedditConfigT.
Variable shorten : string -> nat -> string.

Lemma scan_new_posts_silent {X} (f : State -> X) last_id posts :
  preserves f (scan_new_posts shorten last_id posts).
Proof.
  intros s. now rewrite scan_new_posts_state.
Qed.

Lemma relay_new_posts_untouched subreddit posts :
  preserves untouched_by_relay (relay_new_posts shorten subreddit posts).
Proof.
  pose proof (scan_new_posts_silent untouched_by_relay) as Hscan.
  unfold relay_new_posts. preserves_tac.
Qed.

Lemma poll_subreddit_untouched subreddit :
  preserves untouched_by_poller (poll_subreddit shorten subreddit).
Proof.
  pose proof (scan_new_posts_silent untouched_by_poller) as Hscan.
  pose proof fetch_posts_untouched_by_poller as Hfetch.
  unfold poll_subreddit, probe_and_fetch, relay_new_posts. preserves_tac.
Qed.

Lemma poll_subreddit_events subreddit :
  emits_only (fun e => poller_event e = true) (poll_subreddit shorten subreddit).
Proof.
  assert (Hscan : forall last_id posts,
            emits_only (fun e => poller_event e = true)
              (scan_new_posts shorten last_id posts)).
  { intros last_id posts. apply emits_only_silent. intros s.
    now rewrite scan_new_posts_state. }
  pose proof fetch_posts_poller_events as Hfetch.
  unfold poll_subreddit, probe_and_fetch, relay_new_posts. emits_tac.
Qed.

(** X10.  A round of the poller, however it ends and whatever the replies,
    writes no field of the cog other than [prev_lengths] and [last_ids],
    leaves the pins and the tasks alone, and adds nothing to the trace but
    pauses, HEAD and GET requests and messages: no token request, no pin,
    no unpin. *)
Theorem poll_new_posts_cycle_footprint (s : State) :
  let s' := fst (poll_new_posts_cycle RedditConfig shorten s) in
  credentials (self s') = credentials (self s)
  /\ pinned (world s') = pinned (world s)
  /\ loop (world s') = loop (world s)
  /\ exists evs, trace (world s') = trace (world s) ++ evs
                 /\ Forall (fun e => poller_event e = true) evs.
Proof.
  cbv zeta.
  assert (Hframe : preserves untouched_by_poller
                     (poll_new_posts_cycle RedditConfig shorten)).
  { unfold poll_new_posts_cycle. apply preserves_bind; [preserves_tac|].
    intros _. apply preserves_for_each. apply poll_subreddit_untouched. }
  specialize (Hframe s). unfold untouched_by_poller in Hframe.
  split; [exact (f_equal (fun p => fst (fst p)) Hframe)|].
  split; [exact (f_equal (fun p => snd (fst p)) Hframe)|].
  split; [exact (f_equal snd Hframe)|].
  clear Hframe. revert s. change (emits_only (fun e => poller_event e = true)
                      (poll_new_posts_cycle RedditConfig shorten)).
  unfold poll_new_posts_cycle. apply emits_only_bind; [emits_tac|].
  intros _. apply emits_only_for_each. apply poll_subreddit_events.
Qed.

(** The state right after the HEAD probe of a subreddit. *)
Definition after_probe (subreddit : string) (h : Headers) (s : State) : State :=
  {| self := self s;
     world :=
       set_requests (S (requests (world s)))
         (set_trace
            (trace (world s)
             ++ [HttpHead (OAUTH_URL +:+ "/" +:+ subreddit +:+ "/new.rss") h])
            (world s)) |}.

Lemma poll_subreddit_skips subreddit h len s :
  headers (self s) = Some h ->
  content_length (net (world s) (requests (world s))) = Some len ->
  prev_lengths (self s) !! subreddit = Some len ->
  poll_subreddit shorten subreddit s = (after_probe subreddit h s, Returns tt).
Proof.
  intros Hh Hlen Hprev.
  unfold poll_subreddit, probe_and_fetch, attribute, http_head, next_response,
    emit, bind, get_self, get_world, modify_world, ret.
  simpl. rewrite Hh. simpl. rewrite Hlen. simpl. rewrite Hprev.
  rewrite String.eqb_refl. reflexivity.
Qed.

(** Whatever the fetch does, a probe that got a length has recorded it. *)
Lemma probe_records_length subreddit h len s :
  headers (self s) = Some h ->
  content_length (net (world s) (requests (world s))) = Some len ->
  prev_lengths (self (fst (probe_and_fetch subreddit s))) !! subreddit
  = Some len.
Proof.
  intros Hh Hlen.
  unfold probe_and_fetch, attribute, http_head, next_response,
    emit, bind, get_self, get_world, modify_world, modify_self, ret.
  simpl. rewrite Hh. simpl. rewrite Hlen. simpl.
  destruct (prev_lengths (self s) !! subreddit) as [previous|] eqn:Hprev.
  - destruct (String.eqb_spec len previous) as [->|Hne]; [exact Hprev|].
    match goal with
    | |- context [fetch_posts ?r ?a ?p ?st] =>
        pose proof (fetch_posts_self r a p st) as Hself;
        destruct (fetch_posts r a p st) as [s1 [posts|e]]
    end; simpl in *; rewrite Hself; apply lookup_insert_eq.
  - match goal with
    | |- context [fetch_posts ?r ?a ?p ?st] =>
        pose proof (fetch_posts_self r a p st) as Hself;
        destruct (fetch_posts r a p st) as [s1 [posts|e]]
    end; simpl in *; rewrite Hself; apply lookup_insert_eq.
Qed.

(** X11.  When the probe reports the length recorded for the subreddit,
    the round is over after that HEAD request: nothing is fetched, nothing
    is sent and no field of the cog changes. *)
Theorem unchanged_length_skips_fetch
    (subreddit : string) (h : Headers) (len : string) (s : State) :
  headers (self s) = Some h ->
  content_length (net (world s) (requests (world s))) = Some len ->
  prev_lengths (self s) !! subreddit = Some len ->
  exists s',
    poll_subreddit shorten subreddit s = (s', Returns tt)
    /\ self s' = self s
    /\ trace (world s')
       = trace (world s)
         ++ [HttpHead (OAUTH_URL +:+ "/" +:+ subreddit +:+ "/new.rss") h]
    /\ requests (world s') = S (requests (world s))
    /\ sent (world s') = sent (world s).
Proof.
  intros Hh Hlen Hprev. exists (after_probe subreddit h s).
  split; [now apply (poll_subreddit_skips subreddit h len)|]. repeat split.
Qed.

(** X12.  Two rounds in a row: if the first round for a subreddit got the
    length [len] from its probe and returned, and the probe of the next
    round gets [len] again, the next round fetches nothing. *)
Theorem same_length_twice_fetches_once
    (subreddit : string) (h : Headers) (len : string) (s s1 : State) :
  headers (self s) = Some h ->
  content_length (net (world s) (requests (world s))) = Some len ->
  poll_subreddit shorten subreddit s = (s1, Returns tt) ->
  content_length (net (world s1) (requests (world s1))) = Some len ->
  poll_subreddit shorten subreddit s1 = (after_probe subreddit h s1, Returns tt).
Proof.
  intros Hh Hlen Hrun Hlen1.
  pose proof (poll_subreddit_untouched subreddit s) as Hframe.
  rewrite Hrun in Hframe. simpl in Hframe.
  pose proof (f_equal (fun p => snd (fst (fst p))) Hframe) as Hh1.
  simpl in Hh1.
  apply (poll_subreddit_skips subreddit h len); [congruence|exact Hlen1|].
  pose proof (probe_records_length subreddit h len s Hh Hlen) as Hrec.
  unfold poll_subreddit, bind in Hrun.
  destruct (probe_and_fetch subreddit s) as [s0 [[page|]|e]]; simpl in Hrec.
  - pose proof (relay_new_posts_untouched subreddit page s0) as Hrelay.
    rewrite Hrun in Hrelay. simpl in Hrelay.
    pose proof (f_equal (fun p => fst (fst (fst (fst p)))) Hrelay) as Hprev.
    simpl in Hprev. now rewrite Hprev.
  - injection Hrun as <-. exact Hrec.
  - discriminate.
Qed.

(** X13.  A probe reply without a content-length header ends the round in
    [KeyError] right after the HEAD request. *)
Theorem probe_without_length_raises
    (subreddit : string) (h : Headers) (s : State) :
  headers (self s) = Some h ->
  content_length (net (world s) (requests (world s))) = None ->
  poll_subreddit shorten subreddit s
  = (after_probe subreddit h s, Raises KeyError).
Proof.
  intros Hh Hlen.
  unfold poll_subreddit, probe_and_fetch, attribute, http_head, next_response,
    emit, bind, get_self, get_world, modify_world, ret.
  simpl. rewrite Hh. simpl. rewrite Hlen. reflexivity.
Qed.

End Poller.

Lemma unchanged_length_skips_fetch_witness :
  let s := {| self := set_prev_lengths {["r/Python" := "1000"]} (example_cog ∅);
              world := example_world [head_reply "1000"] [] |} in
  exists s',
    poll_subreddit example_shorten "r/Python" s = (s', Returns tt)
    /\ self s' = self s
    /\ trace (world s')
       = [HttpHead "https://oauth.reddit.com/r/Python/new.rss"
            (bearer_headers "access")]
    /\ requests (world s') = 1%nat
    /\ sent (world s') = 100%nat.
Proof.
  apply (unchanged_length_skips_fetch example_shorten "r/Python"
           (bearer_headers "access") "1000"); reflexivity.
Defined.

(** The page 4, 3, 2 again, followed by a probe that reports the same
    length. *)
Definition state_432_twice : State :=
  example_state {["r/Python" := 2]}
    [head_reply "1000"; listing_reply page_432; head_reply "1000";
     listing_reply page_432].

Lemma same_length_twice_fetches_once_witness :
  let s1 := fst (poll_subreddit example_shorten "r/Python" state_432_twice) in
  poll_subreddit example_shorten "r/Python" s1
  = (after_probe "r/Python" (bearer_headers "access") s1, Returns tt).
Proof.
  apply (same_length_twice_fetches_once example_shorten "r/Python"
           (bearer_headers "access") "1000" state_432_twice).
  - reflexivity.
  - reflexivity.
  - vm_compute. reflexivity.
  - reflexivity.
Defined.

Definition bare_reply : Response :=
  {| status := 200; content_type := "application/atom+xml";
     content_length := None; body := Undecodable |}.

Lemma probe_without_length_raises_witness :
  poll_subreddit example_shorten "r/Python" (example_state ∅ [bare_reply])
  = (after_probe "r/Python" (bearer_headers "access")
       (example_state ∅ [bare_reply]), Raises KeyError).
Proof.
  apply (probe_without_length_raises example_shorten "r/Python"
           (bearer_headers "access")); reflexivity.
Defined.

Section Scan.

Variable shorten : string -> nat -> string.

Lemma newer_than_decodes last_id post :
  newer_than last_id post = true ->
  exists n, int36 (id post) = Some n /\ last_id < n.
Proof.
  unfold newer_than. destruct (int36 (id post)) as [n|]; [|discriminate].
  intros H. exists n. split; [reflexivity|]. now apply Z.ltb_lt.
Qed.


Lemma scan_new_posts_undecodable last_id new bad tail s :
  Forall (fun post => newer_than last_id post = true) new ->
  int36 (id bad) = None ->
  scan_new_posts shorten last_id (new ++ bad :: tail) s
  = (s, Raises ValueError).
Proof.
  intros Hnew Hbad. induction Hnew as [|post new Hpost _ IH]; simpl.
  - now rewrite Hbad.
  - destruct (newer_than_decodes _ _ Hpost) as (m & Hm & Hlt). rewrite Hm.
    destruct (Z.leb_spec m last_id); [lia|].
    now rewrite (bind_raises _ _ _ _ _ IH).
Qed.



(** X15.  When the scan meets an id that is no base-36 number before it
    meets a known post, the round ends in [ValueError] in the state right
    after the fetch: nothing is sent and the watermark is not touched. *)
Theorem poll_undecodable_id_raises
    (subreddit : string) (s s1 : State) (new tail : list Post) (bad : Post)
    (W : Z) :
  last_ids (self s) !! subreddit = Some W ->
  probe_and_fetch subreddit s = (s1, Returns (Some (new ++ bad :: tail))) ->
  Forall (fun post => newer_than W post = true) new ->
  int36 (id bad) = None ->
  poll_subreddit shorten subreddit s = (s1, Raises ValueError)
  /\ last_ids (self s1) !! subreddit = Some W.
Proof.
  intros Hlast Hpf Hnew Hbad.
  destruct (probe_and_fetch_fields _ _ _ _ Hpf) as [Hids _].
  split; [|now rewrite Hids].
  unfold poll_subreddit. rewrite (bind_returns _ _ _ _ _ Hpf).
  unfold relay_new_posts. unfold bind at 1. unfold get_self at 1.
  cbv beta iota. rewrite Hids, Hlast.
  now rewrite (bind_raises _ _ _ _ _
                 (scan_new_posts_undecodable W new bad tail s1 Hnew Hbad)).
Qed.

(** X16.  A round for one subreddit leaves the watermark and the recorded
    length of every other subreddit as they were. *)
Theorem poll_subreddit_other_entries (subreddit other : string) (s : State) :
  other <> subreddit ->
  let s' := fst (poll_subreddit shorten subreddit s) in
  last_ids (self s') !! other = last_ids (self s) !! other
  /\ prev_lengths (self s') !! other = prev_lengths (self s) !! other.
Proof.
  intros Hne. cbv zeta. split.
  - destruct (poll_subreddit_last_ids shorten subreddit s)
      as [Hsame|(s1 & top & rest & n & _ & _ & Hnew)].
    + now rewrite Hsame.
    + rewrite Hnew. now apply lookup_insert_ne.
  - unfold poll_subreddit, bind.
    assert (Hprobe :
      prev_lengths (self (fst (probe_and_fetch subreddit s))) !! other
      = prev_lengths (self s) !! other).
    { unfold probe_and_fetch, attribute, http_head, next_response,
        emit, bind, get_self, get_world, modify_world, modify_self, ret.
      simpl. destruct (headers (self s)); simpl; [|reflexivity].
      destruct (content_length _) as [len|]; simpl; [|reflexivity].
      destruct (match prev_lengths (self s) !! subreddit with
                | Some previous => (len =? previous)%string
                | None => false
                end); simpl; [reflexivity|].
      match goal with
      | |- context [fetch_posts ?r ?a ?p ?st] =>
          pose proof (fetch_posts_self r a p st) as Hself;
          destruct (fetch_posts r a p st) as [s1 [posts|e]]
      end; simpl in *; rewrite Hself; now apply lookup_insert_ne. }
    destruct (probe_and_fetch subreddit s) as [s0 [[page|]|e]];
      simpl in Hprobe; try exact Hprobe.
    pose proof (relay_new_posts_untouched shorten subreddit page s0) as Hrelay.
    pose proof (f_equal (fun p => fst (fst (fst (fst p)))) Hrelay) as Hprev.
    simpl in Hprev. now rewrite Hprev.
Qed.

End Scan.



(** A page with an id that is no number: 9, then "!!", then 1. *)
Definition state_bad_id : State :=
  example_state {["r/Python" := 2]}
    [head_reply "1000";
     listing_reply [example_post "9"; example_post "!!"; example_post "1"]].

Lemma poll_undecodable_id_raises_witness :
  poll_subreddit example_shorten "r/Python" state_bad_id
  = (fst (probe_and_fetch "r/Python" state_bad_id), Raises ValueError)
  /\ last_ids (self (fst (probe_and_fetch "r/Python" state_bad_id)))
       !! "r/Python" = Some 2.
Proof.
  apply (poll_undecodable_id_raises example_shorten "r/Python" state_bad_id
           (fst (probe_and_fetch "r/Python" state_bad_id))
           [example_post "9"] [example_post "1"] (example_post "!!") 2).
  - reflexivity.
  - vm_compute. reflexivity.
  - repeat constructor.
  - reflexivity.
Defined.

Lemma poll_subreddit_other_entries_witness :
  let s := {| self := set_prev_lengths {["r/learnpython" := "7"]}
                        (example_cog {["r/learnpython" := 50]});
              world := example_world
                         [head_reply "1000"; listing_reply page_432] [] |} in
  let s' := fst (poll_subreddit example_shorten "r/Python" s) in
  last_ids (self s') !! "r/learnpython" = last_ids (self s) !! "r/learnpython"
  /\ prev_lengths (self s') !! "r/learnpython"
     = prev_lengths (self s) !! "r/learnpython".
Proof.
  apply (poll_subreddit_other_entries example_shorten "r/Python"
           "r/learnpython").
  discriminate.
Defined.

(** ** [send_top_posts] and the commands *)

Lemma fetch_posts_effects (route : string) (amount : Z)
    (params : list (string * string)) (s : State) :
  let s' := fst (fetch_posts route amount params s) in
  self s' = self s
  /\ pinned (world s') = pinned (world s)
  /\ sent (world s') = sent (world s)
  /\ loop (world s') = loop (world s)
  /\ exists evs, trace (world s') = trace (world s) ++ evs
                 /\ Forall (fun e => is_get_or_sleep e = true) evs.
Proof.
  cbv zeta. split; [apply fetch_posts_self|].
  unfold fetch_posts. destruct (negb _).
  - simpl. repeat split. exists []. split;
      [symmetry; apply app_nil_r|constructor].
  - destruct (fetch_attempts_world (OAUTH_URL +:+ "/" +:+ route) amount params
                MAX_FETCH_RETRIES s) as (_ & _ & Hpin & Hsent & Hloop).
    repeat split; try assumption. apply fetch_attempts_emits.
Qed.

Lemma fetch_attempts_first url amount params n h s :
  headers (self s) = Some h ->
  exists evs,
    trace (world (fst (fetch_attempts url amount params (S n) s)))
    = trace (world s) ++ HttpGet url h params :: evs.
Proof.
  intros Hh. cbn [fetch_attempts].
  unfold bind at 1. unfold attribute, bind at 1, get_self. cbv beta iota.
  rewrite Hh. unfold ret at 1. cbv beta iota.
  unfold bind at 1. unfold http_get, bind at 1, emit, modify_world.
  cbv beta iota. unfold next_response, bind at 1, get_world. cbv beta iota.
  unfold bind at 1, modify_world, ret at 1. cbv beta iota.
  destruct (status_ok _).
  - unfold json, children_of, bind, ret, raise. simpl.
    destruct (negb _); simpl; [now exists []|].
    destruct (body _); simpl; now exists [].
  - unfold bind at 1, sleep, bind at 1, emit, modify_world. cbv beta iota.
    match goal with
    | |- context [fetch_attempts url amount params n ?st] =>
        destruct (fetch_attempts_emits url amount params n st)
          as (evs & Hev & _)
    end.
    rewrite Hev. simpl. rewrite <- !app_assoc. simpl. eexists. reflexivity.
Qed.

Lemma lookup_mod_nonempty {A} (l : list A) (i : nat) :
  l <> [] -> exists x, l !! (i mod length l)%nat = Some x /\ In x l.
Proof.
  intros Hne.
  assert (Hlt : (i mod length l < length l)%nat).
  { apply Nat.mod_upper_bound. destruct l; [congruence|discriminate]. }
  destruct (lookup_lt_is_Some_2 l _ Hlt) as [x Hx]. exists x.
  split; [exact Hx|]. apply list_elem_of_In. eapply list_elem_of_lookup_2, Hx.
Qed.

Section TopPosts.

Variable ERROR_REPLIES : list string.
Variable shorten : string -> nat -> string.

(** [send_top_posts] has shown the typing indicator. *)
Definition after_typing (channel : Channel) (s : State) : State :=
  {| self := self s;
     world := set_trace (trace (world s) ++ [Typing channel]) (world s) |}.

Definition sorry_embed (reply : string) : Embed :=
  {| embed_title := Some reply; embed_url := None;
     embed_description := Some
       ("Sorry! We couldn't find any posts from that subreddit. "
        +:+ "If this problem persists, please let us know.");
     embed_footer := None; embed_colour := Some red |}.

(** X17.  When the fetch comes back empty, [send_top_posts] sends one red
    embed whose title is one of the error replies, and sends it without the
    [content] text it was given. *)
Theorem send_top_posts_nothing_found
    (channel : Channel) (subreddit : string) (content : option string)
    (time : string) (s s1 : State) :
  ERROR_REPLIES <> [] ->
  fetch_posts (subreddit +:+ "/top") 5 [("t", time)] (after_typing channel s)
  = (s1, Returns []) ->
  exists s2 reply,
    In reply ERROR_REPLIES
    /\ let m := {| message_id := sent (world s1); message_content := None;
                   message_embed := sorry_embed reply |} in
       send_top_posts ERROR_REPLIES shorten channel subreddit content time s
       = (s2, Returns m)
       /\ trace (world s2) = trace (world s1) ++ [Send channel m].
Proof.
  intros Hne Hfetch.
  destruct (lookup_mod_nonempty ERROR_REPLIES
              (dice (world s1) (rolls (world s1))) Hne) as (reply & Hreply & Hin).
  eexists _, reply. split; [exact Hin|]. cbv zeta.
  unfold send_top_posts. unfold bind at 1. unfold emit, modify_world.
  cbv beta iota. fold (after_typing channel s).
  rewrite (bind_returns _ _ _ _ _ Hfetch).
  unfold random_choice, channel_send, emit, bind, get_world, modify_world, ret.
  simpl. rewrite Hreply. simpl. split; reflexivity.
Qed.

(** X18.  Whenever [send_top_posts] returns a message, that message is the
    one and only message it sent, to the channel it was given and as the
    last thing it did; before it there are the typing indicator, GET
    requests and pauses, and the cog and the pins are as before. *)
Theorem send_top_posts_sends_once
    (channel : Channel) (subreddit : string) (content : option string)
    (time : string) (s s' : State) (m : Message) :
  send_top_posts ERROR_REPLIES shorten channel subreddit content time s
  = (s', Returns m) ->
  self s' = self s
  /\ pinned (world s') = pinned (world s)
  /\ message_id m = sent (world s)
  /\ sent (world s') = S (sent (world s))
  /\ exists evs,
       trace (world s')
       = trace (world s) ++ Typing channel :: evs ++ [Send channel m]
       /\ Forall (fun e => is_get_or_sleep e = true) evs.
Proof.
  unfold send_top_posts. unfold bind at 1. unfold emit, modify_world.
  cbv beta iota. fold (after_typing channel s). unfold bind at 1.
  destruct (fetch_posts_effects (subreddit +:+ "/top") 5 [("t", time)]
              (after_typing channel s))
    as (Hself & Hpin & Hsent & _ & evs & Hev & Hall).
  destruct (fetch_posts _ _ _ (after_typing channel s)) as [s1 [posts|e]];
    [|discriminate]. simpl in Hself, Hpin, Hsent, Hev.
  assert (Hsend : forall c e,
            channel_send channel c e s1 = (s', Returns m) ->
            self s' = self s
            /\ pinned (world s') = pinned (world s)
            /\ message_id m = sent (world s)
            /\ sent (world s') = S (sent (world s))
            /\ exists evs,
                 trace (world s')
                 = trace (world s) ++ Typing channel :: evs ++ [Send channel m]
                 /\ Forall (fun e => is_get_or_sleep e = true) evs).
  { intros c e. unfold channel_send, emit, bind, get_world, modify_world, ret.
    simpl. intros [= <- <-]. simpl. rewrite Hself, Hpin, Hsent.
    repeat split. exists evs. split; [|exact Hall].
    rewrite Hev. now rewrite <- !app_assoc. }
  destruct posts as [|post posts]; [|apply Hsend].
  unfold random_choice, channel_send, emit, bind, get_world, modify_world,
    ret, raise.
  simpl. destruct (ERROR_REPLIES !! _) as [reply|]; [|discriminate].
  simpl. intros [= <- <-]. simpl. rewrite Hself, Hpin, Hsent.
  repeat split. exists evs. split; [|exact Hall].
  rewrite Hev. now rewrite <- !app_assoc.
Qed.

End TopPosts.

Lemma send_top_posts_nothing_found_witness :
  let s1 := fst (fetch_posts "r/Python/top" 5 [("t", "week")]
                   (after_typing example_channel (example_state ∅ []))) in
  exists s2 reply,
    In reply example_replies
    /\ let m := {| message_id := sent (world s1); message_content := None;
                   message_embed := sorry_embed reply |} in
       send_top_posts example_replies example_shorten example_channel
         "r/Python" (Some "This week's top posts") "week" (example_state ∅ [])
       = (s2, Returns m)
       /\ trace (world s2) = trace (world s1) ++ [Send example_channel m].
Proof.
  apply (send_top_posts_nothing_found example_replies example_shorten
           example_channel "r/Python" (Some "This week's top posts") "week"
           (example_state ∅ [])).
  - discriminate.
  - vm_compute. reflexivity.
Defined.

Lemma send_top_posts_sends_once_witness :
  self (fst digest_sent) = self state_digest
  /\ pinned (world (fst digest_sent)) = pinned (world state_digest)
  /\ message_id digest_message = sent (world state_digest)
  /\ sent (world (fst digest_sent)) = S (sent (world state_digest))
  /\ exists evs,
       trace (world (fst digest_sent))
       = trace (world state_digest)
         ++ Typing example_channel :: evs ++ [Send example_channel digest_message]
       /\ Forall (fun e => is_get_or_sleep e = true) evs.
Proof.
  apply (send_top_posts_sends_once example_replies example_shorten
           example_channel "r/Python"
           (Some ("This week's top " +:+ "r/Python" +:+ " posts have arrived!"))
           "week" state_digest (fst digest_sent) digest_message).
  vm_compute. reflexivity.
Defined.

(** *** The commands [reddit top], [reddit daily] and [reddit weekly]

    [ctx.channel] is the channel the command was invoked in; the subreddit
    argument arrives converted, "r/Python" when it was left out. *)

Record Context := { ctx_channel : Channel }.

Section Commands.

Variable ERROR_REPLIES : list string.
Variable shorten : string -> nat -> string.

Definition top_command (ctx : Context) (subreddit : string) : M unit :=
  do _ <- send_top_posts ERROR_REPLIES shorten (ctx_channel ctx) subreddit
            (Some ("Here are the top " +:+ subreddit +:+ " posts of all time!"))
            "all";
  ret tt.

Definition daily_command (ctx : Context) (subreddit : string) : M unit :=
  do _ <- send_top_posts ERROR_REPLIES shorten (ctx_channel ctx) subreddit
            (Some ("Here are today's top " +:+ subreddit +:+ " posts!")) "day";
  ret tt.

Definition weekly_command (ctx : Context) (subreddit : string) : M unit :=
  do _ <- send_top_posts ERROR_REPLIES shorten (ctx_channel ctx) subreddit
            (Some ("Here are this week's top " +:+ subreddit +:+ " posts!"))
            "week";
  ret tt.

(** With headers in place, [send_top_posts] opens with the typing indicator
    and a GET for the top listing of the subreddit over the given window. *)
Lemma send_top_posts_opening channel subreddit content time h s :
  headers (self s) = Some h ->
  exists evs,
    trace (world (fst (send_top_posts ERROR_REPLIES shorten channel subreddit
                         content time s)))
    = trace (world s)
      ++ Typing channel
         :: HttpGet (OAUTH_URL +:+ "/" +:+ subreddit +:+ "/top") h [("t", time)]
         :: evs.
Proof.
  intros Hh.
  unfold send_top_posts. unfold bind at 1. unfold emit, modify_world.
  cbv beta iota. fold (after_typing channel s). unfold bind at 1.
  unfold fetch_posts. cbn [negb andb Z.leb Z.ltb Z.compare Pos.compare
                           Pos.compare_cont].
  cbv iota. unfold MAX_FETCH_RETRIES.
  destruct (fetch_attempts_first
              (OAUTH_URL +:+ "/" +:+ (subreddit +:+ "/top")) 5 [("t", time)] 2
              h (after_typing channel s) Hh) as (evs & Hev).
  destruct (fetch_attempts _ _ _ 3 (after_typing channel s))
    as [s1 [posts|e]]; simpl in Hev.
  2:{ simpl. rewrite Hev. eexists. rewrite <- app_assoc. reflexivity. }
  unfold random_choice, channel_send, emit, bind, get_world, modify_world,
    ret, raise.
  destruct posts; simpl; [destruct (ERROR_REPLIES !! _); simpl|];
    rewrite Hev; eexists; rewrite <- ?app_assoc; simpl; reflexivity.
Qed.

Lemma fst_bind_ret {A} (m : M A) (s : State) :
  fst (bind m (fun _ => ret tt) s) = fst (m s).
Proof. unfold bind. now destruct (m s) as [s' [a|e]]. Qed.

(** X19.  Each of the three commands leaves the cog as it is and, with
    headers in place, opens with the typing indicator in the channel of the
    invocation followed by a GET for the top listing of the subreddit over
    its own window: all time, the day, the week. *)
Theorem commands_fetch_their_window
    (ctx : Context) (subreddit : string) (h : Headers) (s : State) :
  headers (self s) = Some h ->
  let opens (s' : State) (window : string) :=
    self s' = self s
    /\ exists evs,
         trace (world s')
         = trace (world s)
           ++ Typing (ctx_channel ctx)
              :: HttpGet (OAUTH_URL +:+ "/" +:+ subreddit +:+ "/top") h
                   [("t", window)]
              :: evs in
  opens (fst (top_command ctx subreddit s)) "all"
  /\ opens (fst (daily_command ctx subreddit s)) "day"
  /\ opens (fst (weekly_command ctx subreddit s)) "week".
Proof.
  intros Hh opens. unfold opens, top_command, daily_command, weekly_command.
  rewrite !fst_bind_ret.
  repeat split; first [apply send_top_posts_self
                      | now apply send_top_posts_opening].
Qed.

End Commands.

Lemma commands_fetch_their_window_witness :
  let s := example_state ∅ [listing_reply page_432] in
  let ctx := {| ctx_channel := {| channel_id := 7 |} |} in
  let opens (s' : State) (window : string) :=
    self s' = self s
    /\ exists evs,
         trace (world s')
         = trace (world s)
           ++ Typing {| channel_id := 7 |}
              :: HttpGet "https://oauth.reddit.com/r/Python/top"
                   (bearer_headers "access") [("t", window)]
              :: evs in
  opens (fst (top_command example_replies example_shorten ctx "r/Python" s)) "all"
  /\ opens (fst (daily_command example_replies example_shorten ctx "r/Python" s))
       "day"
  /\ opens (fst (weekly_command example_replies example_shorten ctx "r/Python" s))
       "week".
Proof.
  apply (commands_fetch_their_window example_replies example_shorten
           {| ctx_channel := {| channel_id := 7 |} |} "r/Python"
           (bearer_headers "access")
           (example_state ∅ [listing_reply page_432])).
  reflexivity.
Defined.

(** ** More on the weekly digest *)

Definition untouched_by_digest (s : State) :=
  (self s, pinned (world s), loop (world s)).

Definition untouched_by_weekly (s : State) := (self s, loop (world s)).

(** What the weekly digest may emit: never a HEAD or a token request. *)
Definition weekly_event (e : Event) : bool :=
  match e with
  | Sleep _ | Typing _ | HttpGet _ _ _ | Send _ _ | Pins _ | Unpin _ | Pin _ =>
      true
  | _ => false
  end.

Definition digest_event (e : Event) : bool :=
  match e with
  | Typing _ | HttpGet _ _ _ | Sleep _ | Send _ _ => true
  | _ => false
  end.

Lemma fetch_attempts_untouched_by_digest url amount params n :
  preserves untouched_by_digest (fetch_attempts url amount params n).
Proof.
  induction n as [|n IH]; simpl; [intros s; reflexivity|]. preserves_tac.
Qed.

Lemma fetch_posts_untouched_by_digest route amount params :
  preserves untouched_by_digest (fetch_posts route amount params).
Proof.
  unfold fetch_posts. preserves_tac. apply fetch_attempts_untouched_by_digest.
Qed.

Lemma fetch_posts_untouched_by_weekly route amount params :
  preserves untouched_by_weekly (fetch_posts route amount params).
Proof.
  intros s. pose proof (fetch_posts_untouched_by_digest route amount params s)
    as H.
  unfold untouched_by_digest in H. unfold untouched_by_weekly.
  pose proof (f_equal (fun p => fst (fst p)) H) as Hself.
  pose proof (f_equal snd H) as Hloop. simpl in Hself, Hloop.
  now rewrite Hself, Hloop.
Qed.

Lemma unpin_oldest_untouched_by_weekly rounds :
  forall pins, preserves untouched_by_weekly (unpin_oldest rounds pins).
Proof.
  induction rounds as [|rounds IH]; intros pins; cbn [unpin_oldest];
    [intros s; reflexivity|].
  preserves_tac.
Qed.

Lemma unpin_oldest_weekly_events rounds :
  forall pins,
    emits_only (fun e => weekly_event e = true) (unpin_oldest rounds pins).
Proof.
  induction rounds as [|rounds IH]; intros pins; cbn [unpin_oldest];
    emits_tac.
Qed.

Lemma fetch_posts_events (P : Event -> bool) route amount params :
  (forall e, is_get_or_sleep e = true -> P e = true) ->
  emits_only (fun e => P e = true) (fetch_posts route amount params).
Proof.
  intros HP. unfold fetch_posts. destruct (negb _); [emits_tac|].
  eapply emits_only_weaken; [|apply fetch_attempts_emits]. exact HP.
Qed.

Section Digest.

Variable RedditConfig : RedditConfigT.
Variable ERROR_REPLIES : list string.
Variable shorten : string -> nat -> string.

Lemma send_top_posts_untouched channel subreddit content time :
  preserves untouched_by_digest
    (send_top_posts ERROR_REPLIES shorten channel subreddit content time).
Proof.
  pose proof fetch_posts_untouched_by_digest as Hfetch.
  unfold send_top_posts. preserves_tac.
Qed.

Lemma send_top_posts_events channel subreddit content time :
  emits_only (fun e => digest_event e = true)
    (send_top_posts ERROR_REPLIES shorten channel subreddit content time).
Proof.
  assert (Hfetch : forall route amount params,
            emits_only (fun e => digest_event e = true)
              (fetch_posts route amount params)).
  { intros. apply fetch_posts_events. now intros []. }
  unfold send_top_posts. emits_tac.
Qed.

(** X20.  A weekly round, however it ends, changes no field of the cog,
    the watermarks and recorded lengths included, and adds nothing to the
    trace but its pause, typing indicators, GET requests, messages and
    pin maintenance: no HEAD probe and no token request. *)
Theorem poll_top_weekly_cycle_footprint (s : State) :
  let s' := fst (poll_top_weekly_cycle RedditConfig ERROR_REPLIES shorten s) in
  self s' = self s
  /\ loop (world s') = loop (world s)
  /\ exists evs, trace (world s') = trace (world s) ++ evs
                 /\ Forall (fun e => weekly_event e = true) evs.
Proof.
  cbv zeta.
  assert (Hframe : preserves untouched_by_weekly
                     (poll_top_weekly_cycle RedditConfig ERROR_REPLIES shorten)).
  { pose proof fetch_posts_untouched_by_weekly as Hfetch.
    pose proof unpin_oldest_untouched_by_weekly as Hunpin.
    unfold poll_top_weekly_cycle, weekly_subreddit, maintain_pins,
      send_top_posts, lift.
    preserves_tac. }
  specialize (Hframe s). unfold untouched_by_weekly in Hframe.
  split; [exact (f_equal fst Hframe)|]. split; [exact (f_equal snd Hframe)|].
  clear Hframe. revert s.
  change (emits_only (fun e => weekly_event e = true)
            (poll_top_weekly_cycle RedditConfig ERROR_REPLIES shorten)).
  assert (Hfetch : forall route amount params,
            emits_only (fun e => weekly_event e = true)
              (fetch_posts route amount params)).
  { intros. apply fetch_posts_events. now intros []. }
  pose proof unpin_oldest_weekly_events as Hunpin.
  unfold poll_top_weekly_cycle, weekly_subreddit, maintain_pins,
    send_top_posts.
  emits_tac.
Qed.

(** X21.  For a subreddit whose lower-cased name is not "r/python" the
    weekly step is the digest message and nothing else: the pins are not
    listed, not changed, and the cog is as before. *)
Theorem weekly_subreddit_leaves_pins (subreddit : string) (s : State) :
  lower subreddit <> "r/python" ->
  let s' := fst (weekly_subreddit ERROR_REPLIES shorten subreddit s) in
  self s' = self s
  /\ pinned (world s') = pinned (world s)
  /\ exists evs, trace (world s') = trace (world s) ++ evs
                 /\ Forall (fun e => digest_event e = true) evs.
Proof.
  intros Hne. cbv zeta.
  apply String.eqb_neq in Hne.
  assert (Hframe : preserves untouched_by_digest
                     (weekly_subreddit ERROR_REPLIES shorten subreddit)).
  { pose proof send_top_posts_untouched as Hsend.
    unfold weekly_subreddit. rewrite Hne. preserves_tac. }
  specialize (Hframe s). unfold untouched_by_digest in Hframe.
  split; [exact (f_equal (fun p => fst (fst p)) Hframe)|].
  split; [exact (f_equal (fun p => snd (fst p)) Hframe)|].
  clear Hframe. revert s.
  change (emits_only (fun e => digest_event e = true)
            (weekly_subreddit ERROR_REPLIES shorten subreddit)).
  pose proof send_top_posts_events as Hsend.
  unfold weekly_subreddit. rewrite Hne. emits_tac.
Qed.

End Digest.

Lemma weekly_subreddit_leaves_pins_witness :
  let s := {| self := example_cog ∅;
              world := example_world [listing_reply page_432]
                         [old_pin 5; old_pin 4; old_pin 3; old_pin 2; old_pin 1] |} in
  let s' := fst (weekly_subreddit example_replies example_shorten
                   "r/learnpython" s) in
  self s' = self s
  /\ pinned (world s') = pinned (world s)
  /\ exists evs, trace (world s') = trace (world s) ++ evs
                 /\ Forall (fun e => digest_event e = true) evs.
Proof.
  apply (weekly_subreddit_leaves_pins example_replies example_shorten
           "r/learnpython").
  discriminate.
Defined.

(** ** More on the weekly timer *)

Lemma until_monday_formula now :
  valid_datetime now -> toordinal now + 7 <= MAXORDINAL ->
  until_monday now
  = Returns ((7 - weekday now) * DAY
             - ((hour now * 60 + minute now) * 60 + second now) * 1000000).
Proof.
  intros (Ho & Hh & Hm & Hs & Hus) Hmax. unfold until_monday, add_days.
  pose proof (Z.mod_pos_bound (toordinal now + 6) 7 ltac:(lia)) as Hwd.
  fold (weekday now) in Hwd.
  destruct (Z.leb_spec 1 (toordinal now + (7 - weekday now))); [|lia].
  destruct (Z.leb_spec (toordinal now + (7 - weekday now)) MAXORDINAL);
    [|unfold MAXORDINAL in *; lia].
  simpl. f_equal. unfold datetime_sub, replace_hms, instant, DAY. simpl. lia.
Qed.

(** X22.  For every valid [now] more than a week before the end of the
    calendar, the pause the weekly loop computes is a whole number of
    seconds, at least one second and at most seven days; it ends on a Monday
    at 00:00:00 plus the microseconds of [now]; and on a Monday at
    00:00:00 it is the full seven days, not zero. *)
Theorem until_monday_bounds (now : datetime) :
  valid_datetime now -> toordinal now + 7 <= MAXORDINAL ->
  exists d,
    until_monday now = Returns d
    /\ 1000000 <= d <= WEEK
    /\ d mod 1000000 = 0
    /\ (instant now + d) mod WEEK = microsecond now
    /\ (weekday now = 0 -> hour now = 0 -> minute now = 0 -> second now = 0 ->
        d = WEEK).
Proof.
  intros Hv Hmax. eexists. split; [now apply until_monday_formula|].
  destruct Hv as (Ho & Hh & Hm & Hs & Hus).
  pose proof (Z.mod_pos_bound (toordinal now + 6) 7 ltac:(lia)) as Hwd.
  pose proof (Z.div_mod (toordinal now + 6) 7 ltac:(lia)) as Hq.
  unfold weekday, instant, WEEK, DAY.
  set (wd := (toordinal now + 6) mod 7) in *.
  set (q := (toordinal now + 6) / 7) in *.
  split; [lia|]. split; [|split].
  - replace ((7 - wd) * 86400000000
             - ((hour now * 60 + minute now) * 60 + second now) * 1000000)
      with (((7 - wd) * 86400
             - ((hour now * 60 + minute now) * 60 + second now)) * 1000000)
      by lia.
    apply Z.mod_mul. lia.
  - symmetry. apply (Z.mod_unique_pos _ _ q); lia.
  - intros -> -> -> ->. lia.
Qed.

Lemma until_monday_bounds_witness :
  exists d,
    until_monday wednesday_noon_and_a_half = Returns d
    /\ 1000000 <= d <= WEEK
    /\ d mod 1000000 = 0
    /\ (instant wednesday_noon_and_a_half + d) mod WEEK = 500000
    /\ (weekday wednesday_noon_and_a_half = 0 -> 12 = 0 -> 0 = 0 -> 0 = 0 ->
        d = WEEK).
Proof.
  apply (until_monday_bounds wednesday_noon_and_a_half).
  - unfold valid_datetime. vm_compute. repeat split; discriminate.
  - vm_compute. discriminate.
Defined.

(** ** More on the start-up and on the tasks *)

(** What the token life cycle may emit. *)
Definition token_event (e : Event) : bool :=
  match e with
  | HttpPost _ _ _ _ | RemoveCog _ | Sleep _ => true
  | _ => false
  end.

Definition tokens (c : Cog) := (access_token c, refresh_token c, headers c).

Section Tasks.

Variable RedditConfig : RedditConfigT.
Variable ERROR_REPLIES : list string.
Variable shorten : string -> nat -> string.

Lemma refresh_iteration_loop n :
  preserves (fun s => loop (world s))
    (iteration RedditConfig ERROR_REPLIES shorten RefreshTask n).
Proof.
  destruct n; simpl; unfold get_tokens, refresh_access_token; preserves_tac.
Qed.

Lemma refresh_iteration_events n :
  emits_only (fun e => token_event e = true)
    (iteration RedditConfig ERROR_REPLIES shorten RefreshTask n).
Proof.
  destruct n; simpl; unfold get_tokens, refresh_access_token; emits_tac.
Qed.

(** The polling tasks do not exist. *)
Definition no_pollers (s : State) : Prop :=
  new_posts_status (loop (world s)) = NotCreated
  /\ top_weekly_status (loop (world s)) = NotCreated.

Lemma step_task_no_pollers t s :
  no_pollers s ->
  let s' := step_task RedditConfig ERROR_REPLIES shorten t s in
  no_pollers s'
  /\ exists evs, trace (world s') = trace (world s) ++ evs
                 /\ Forall (fun e => token_event e = true) evs.
Proof.
  intros [Hnew Hweekly]. unfold step_task.
  assert (Hidle : no_pollers s
                  /\ exists evs, trace (world s) = trace (world s) ++ evs
                       /\ Forall (fun e => token_event e = true) evs).
  { split; [now split|]. exists []. split;
      [symmetry; apply app_nil_r|constructor]. }
  destruct t; cbn [task_status]; [|now rewrite Hnew|now rewrite Hweekly].
  destruct (refresh_status (loop (world s))) as [|n|e]; try exact Hidle.
  pose proof (refresh_iteration_loop n s) as Hloop.
  destruct (refresh_iteration_events n s) as (evs & Hev & Hall).
  destruct (iteration RedditConfig ERROR_REPLIES shorten RefreshTask n s)
    as [s1 [[]|e]]; simpl in Hloop, Hev.
  - split; [unfold no_pollers; simpl; rewrite Hloop; now split
           |exists evs; simpl; now split].
  - destruct (restarts RefreshTask n e).
    + split; [unfold no_pollers; simpl; rewrite Hloop; now split|].
      exists (evs ++ [Sleep (Z.of_nat (dice (world s1) (rolls (world s1))))]).
      simpl. split; [now rewrite Hev, app_assoc|].
      apply Forall_app. split; [exact Hall|]. now repeat constructor.
    + split; [unfold no_pollers; simpl; rewrite Hloop; now split
             |exists evs; simpl; now split].
Qed.

(** X23.  When the channel cannot be found, [init_reddit_polling] starts
    the token task only: whatever the schedule, nothing but token requests,
    pauses and the removal of the cog is ever emitted, so no post is fetched
    and no message is sent. *)
Theorem no_channel_no_polling (w : World) (schedule : list Task) :
  channel_reply w = None ->
  loop w = idle_loop ->
  let s0 := fst (init_reddit_polling {| self := Cog_init; world := w |}) in
  let s := run_event_loop RedditConfig ERROR_REPLIES shorten schedule s0 in
  reddit_channel (self s0) = None
  /\ loop (world s0)
     = {| refresh_status := Alive 0; new_posts_status := NotCreated;
          top_weekly_status := NotCreated |}
  /\ exists evs, trace (world s) = trace w ++ evs
                 /\ Forall (fun e => token_event e = true) evs.
Proof.
  intros Hch Hloop s0 s.
  assert (Hs0 : reddit_channel (self s0) = None
                /\ loop (world s0)
                   = {| refresh_status := Alive 0;
                        new_posts_status := NotCreated;
                        top_weekly_status := NotCreated |}
                /\ trace (world s0) = trace w).
  { subst s0. unfold init_reddit_polling, create_task, bind, get_world,
      get_self, modify_self, modify_world, ret.
    simpl. rewrite Hch. simpl. rewrite Hloop. repeat split. }
  destruct Hs0 as (Hnone & Hl0 & Htrace).
  split; [exact Hnone|]. split; [exact Hl0|].
  assert (Hinv : no_pollers s0) by (unfold no_pollers; now rewrite Hl0).
  rewrite <- Htrace. subst s. clear Hnone Hl0 Htrace.
  generalize dependent s0. induction schedule as [|t schedule IH]; intros s0 Hinv.
  - exists []. split; [symmetry; apply app_nil_r|constructor].
  - destruct (step_task_no_pollers t s0 Hinv) as (Hinv1 & evs1 & Hev1 & Hall1).
    destruct (IH _ Hinv1) as (evs2 & Hev2 & Hall2).
    change (run_event_loop RedditConfig ERROR_REPLIES shorten (t :: schedule) s0)
      with (run_event_loop RedditConfig ERROR_REPLIES shorten schedule
              (step_task RedditConfig ERROR_REPLIES shorten t s0)).
    exists (evs1 ++ evs2). split.
    + rewrite Hev2, Hev1. now rewrite app_assoc.
    + apply Forall_app. now split.
Qed.

Lemma poll_new_posts_cycle_untouched :
  preserves untouched_by_poller (poll_new_posts_cycle RedditConfig shorten).
Proof.
  unfold poll_new_posts_cycle. apply preserves_bind; [preserves_tac|].
  intros _. apply preserves_for_each. apply poll_subreddit_untouched.
Qed.

Lemma poll_top_weekly_cycle_untouched :
  preserves untouched_by_weekly
    (poll_top_weekly_cycle RedditConfig ERROR_REPLIES shorten).
Proof.
  pose proof fetch_posts_untouched_by_weekly as Hfetch.
  pose proof unpin_oldest_untouched_by_weekly as Hunpin.
  unfold poll_top_weekly_cycle, weekly_subreddit, maintain_pins,
    send_top_posts, lift.
  preserves_tac.
Qed.

Lemma step_task_refresh_failed t s e :
  refresh_status (loop (world s)) = Failed e ->
  let s' := step_task RedditConfig ERROR_REPLIES shorten t s in
  refresh_status (loop (world s')) = Failed e
  /\ tokens (self s') = tokens (self s).
Proof.
  intros Hfailed. unfold step_task.
  destruct t; cbn [task_status iteration restarts].
  - rewrite Hfailed. now split.
  - destruct (new_posts_status (loop (world s))); [now split| |now split].
    pose proof (poll_new_posts_cycle_untouched s) as Hframe.
    unfold untouched_by_poller, credentials in Hframe.
    destruct (poll_new_posts_cycle RedditConfig shorten s) as [s1 [[]|e']];
      simpl in *; injection Hframe as _ _ _ _ Ha Hr Hh _ Hl;
      unfold tokens; rewrite Hl, Ha, Hr, Hh; now split.
  - destruct (top_weekly_status (loop (world s))); [now split| |now split].
    pose proof (poll_top_weekly_cycle_untouched s) as Hframe.
    unfold untouched_by_weekly in Hframe.
    destruct (poll_top_weekly_cycle RedditConfig ERROR_REPLIES shorten s)
      as [s1 [[]|e']];
      simpl in *; injection Hframe as Hs Hl; rewrite Hl, Hs; now split.
Qed.

(** X24.  Once the refresh task has ended in an exception it is never run
    again: under every schedule the access token, the refresh token and the
    headers stay what they were, so the pollers go on with the token they
    have. *)
Theorem failed_refresh_freezes_tokens (schedule : list Task) (s : State)
    (e : exn) :
  refresh_status (loop (world s)) = Failed e ->
  let s' := run_event_loop RedditConfig ERROR_REPLIES shorten schedule s in
  refresh_status (loop (world s')) = Failed e
  /\ access_token (self s') = access_token (self s)
  /\ refresh_token (self s') = refresh_token (self s)
  /\ headers (self s') = headers (self s).
Proof.
  revert s. induction schedule as [|t schedule IH]; intros s Hfailed.
  - now repeat split.
  - destruct (step_task_refresh_failed t s e Hfailed) as [Hfailed1 Htok1].
    destruct (IH _ Hfailed1) as (Hfailed2 & Ha & Hr & Hh).
    change (run_event_loop RedditConfig ERROR_REPLIES shorten (t :: schedule) s)
      with (run_event_loop RedditConfig ERROR_REPLIES shorten schedule
              (step_task RedditConfig ERROR_REPLIES shorten t s)).
    cbv zeta. unfold tokens in Htok1. injection Htok1 as Ha1 Hr1 Hh1.
    split; [exact Hfailed2|]. now rewrite Ha, Hr, Hh.
Qed.

End Tasks.

(** A world in which the channel is not found. *)
Definition world_without_channel : World :=
  {| net := fun n => nth n [token_reply "access" "refresh";
                            token_reply "next" "other"] error_reply;
     requests := 0; dice := fun n => n; rolls := 0;
     clock := (ymd2ord 2020 1 1 - 1) * DAY + 43200500000;
     trace := []; pinned := []; sent := 100;
     channel_reply := None; loop := idle_loop |}.

Lemma no_channel_no_polling_witness :
  let s0 := fst (init_reddit_polling
                   {| self := Cog_init; world := world_without_channel |}) in
  let s := run_event_loop example_config example_replies example_shorten
             busy_schedule s0 in
  reddit_channel (self s0) = None
  /\ loop (world s0)
     = {| refresh_status := Alive 0; new_posts_status := NotCreated;
          top_weekly_status := NotCreated |}
  /\ exists evs, trace (world s) = trace world_without_channel ++ evs
                 /\ Forall (fun e => token_event e = true) evs.
Proof.
  apply (no_channel_no_polling example_config example_replies example_shorten
           world_without_channel busy_schedule); reflexivity.
Defined.

Example no_channel_tokens_are_obtained :
  let s0 := fst (init_reddit_polling
                   {| self := Cog_init; world := world_without_channel |}) in
  let s := run_event_loop example_config example_replies example_shorten
             busy_schedule s0 in
  access_token (self s) = Some "access"
  /\ refresh_token (self s) = Some "refresh"
  /\ refresh_status (loop (world s)) = Failed TypeError.
Proof. vm_compute. repeat split. Qed.

(** The refresh task has failed, the pollers are alive. *)
Definition state_refresh_failed : State :=
  {| self := example_cog {["r/Python" := 2]};
     world := set_loop {| refresh_status := Failed TypeError;
                          new_posts_status := Alive 3;
                          top_weekly_status := Alive 0 |}
                (example_world [head_reply "1000"; listing_reply page_432;
                                listing_reply page_432] []) |}.

Lemma failed_refresh_freezes_tokens_witness :
  let s' := run_event_loop example_config example_replies example_shorten
              busy_schedule state_refresh_failed in
  refresh_status (loop (world s')) = Failed TypeError
  /\ access_token (self s') = access_token (self state_refresh_failed)
  /\ refresh_token (self s') = refresh_token (self state_refresh_failed)
  /\ headers (self s') = headers (self state_refresh_failed).
Proof.
  apply (failed_refresh_freezes_tokens example_config example_replies
           example_shorten busy_schedule state_refresh_failed TypeError).
  reflexivity.
Defined.

Example failed_refresh_pollers_go_on :
  let s' := run_event_loop example_config example_replies example_shorten
              [RefreshTask; NewPostsTask; RefreshTask] state_refresh_failed in
  sent_titles (trace (world s')) = ["post 4"; "post 3"]
  /\ last_ids (self s') !! "r/Python" = Some 4.
Proof. vm_compute. repeat split. Qed.

(** ** How often the token endpoint is asked *)

Definition is_post (e : Event) : bool :=
  match e with
  | HttpPost _ _ _ _ => true
  | _ => false
  end.

Definition posts_in (evs : list Event) : nat :=
  length (List.filter is_post evs).

Lemma posts_in_app evs1 evs2 :
  posts_in (evs1 ++ evs2) = (posts_in evs1 + posts_in evs2)%nat.
Proof. unfold posts_in. now rewrite List.filter_app, length_app. Qed.

Lemma posts_in_none (P : Event -> bool) evs :
  (forall e, P e = true -> is_post e = false) ->
  Forall (fun e => P e = true) evs -> posts_in evs = 0%nat.
Proof.
  intros HP. induction 1 as [|e evs He _ IH]; [reflexivity|].
  unfold posts_in in *. simpl. now rewrite (HP e He).
Qed.

Section TokenRequests.

Variable RedditConfig : RedditConfigT.
Variable ERROR_REPLIES : list string.
Variable shorten : string -> nat -> string.

Lemma get_tokens_one_post s :
  let s' := fst (get_tokens RedditConfig s) in
  loop (world s') = loop (world s)
  /\ exists evs, trace (world s') = trace (world s) ++ evs
                 /\ posts_in evs = 1%nat.
Proof.
  unfold get_tokens, http_post, next_response, emit, json, access_token_of,
    refresh_token_of, bind, get_world, modify_world, modify_self, ret, raise.
  simpl. destruct (status_ok _); simpl.
  - destruct (negb _); simpl;
      [split; [reflexivity|]; eexists; split; reflexivity|].
    destruct (body _) as [posts|[access|] [refresh|]| | |]; simpl;
      (split; [reflexivity|]); eexists; split; reflexivity.
  - split; [reflexivity|]. eexists. split; [now rewrite <- app_assoc|].
    reflexivity.
Qed.

Lemma poll_new_posts_cycle_events :
  emits_only (fun e => poller_event e = true)
    (poll_new_posts_cycle RedditConfig shorten).
Proof.
  unfold poll_new_posts_cycle. apply emits_only_bind; [emits_tac|].
  intros _. apply emits_only_for_each. apply poll_subreddit_events.
Qed.

Lemma poll_top_weekly_cycle_events :
  emits_only (fun e => weekly_event e = true)
    (poll_top_weekly_cycle RedditConfig ERROR_REPLIES shorten).
Proof.
  assert (Hfetch : forall route amount params,
            emits_only (fun e => weekly_event e = true)
              (fetch_posts route amount params)).
  { intros. apply fetch_posts_events. now intros []. }
  pose proof unpin_oldest_weekly_events as Hunpin.
  unfold poll_top_weekly_cycle, weekly_subreddit, maintain_pins,
    send_top_posts.
  emits_tac.
Qed.

(** Since [s0] at most one token request went out, and none as long as
    [get_tokens] has not run. *)
Definition asked_at_most_once (s0 s : State) : Prop :=
  exists evs,
    trace (world s) = trace (world s0) ++ evs
    /\ (posts_in evs <= 1)%nat
    /\ (refresh_status (loop (world s)) = Alive 0 -> posts_in evs = 0%nat).

Lemma step_task_asked_at_most_once t s0 s :
  asked_at_most_once s0 s ->
  asked_at_most_once s0 (step_task RedditConfig ERROR_REPLIES shorten t s).
Proof.
  intros (evs & Hev & Hone & Hzero). unfold step_task.
  assert (Hquiet : forall (s1 : State) (st : TaskStatus) (evs1 : list Event),
            trace (world s1) = trace (world s) ++ evs1 ->
            posts_in evs1 = 0%nat ->
            loop (world s1) = loop (world s) ->
            (t = RefreshTask -> st <> Alive 0) ->
            asked_at_most_once s0 (finish t st s1)).
  { intros s1 st evs1 Hev1 Hnone Hloop Hst. exists (evs ++ evs1).
    rewrite posts_in_app, Hnone, Nat.add_0_r. simpl. rewrite Hloop.
    split; [now rewrite Hev1, Hev, app_assoc|]. split; [exact Hone|].
    destruct t; simpl; [intros Hz; now destruct (Hst eq_refl)|exact Hzero..]. }
  destruct (task_status t (loop (world s))) as [|n|e] eqn:Hst;
    [now exists evs| |now exists evs].
  destruct t; cbn [iteration restarts].
  - simpl in Hst. destruct n as [|n].
    + destruct (get_tokens_one_post s) as (Hloop & evs1 & Hev1 & Hposts).
      assert (Hdone : forall st,
                st <> Alive 0 ->
                asked_at_most_once s0
                  (finish RefreshTask st (fst (get_tokens RedditConfig s)))).
      { intros st Hne. exists (evs ++ evs1).
        rewrite posts_in_app, Hposts, (Hzero Hst). simpl.
        split; [now rewrite Hev1, Hev, app_assoc|]. split; [lia|].
        intros Hz. now destruct Hne. }
      destruct (get_tokens RedditConfig s) as [s1 [[]|e]]; apply Hdone;
        discriminate.
    + destruct (refresh_access_token_refused s) as (e & Hrun & He & _).
      unfold bind. rewrite Hrun.
      assert (Hre : restarts RefreshTask (S n) e = false)
        by (destruct He as [-> | ->]; reflexivity).
      cbn [restarts] in Hre. rewrite Hre.
      apply (Hquiet s (Failed e) []); try reflexivity;
        [symmetry; apply app_nil_r|discriminate].
  - pose proof (poll_new_posts_cycle_untouched RedditConfig shorten s)
      as Hframe.
    pose proof (f_equal snd Hframe) as Hloop. simpl in Hloop.
    destruct (poll_new_posts_cycle_events s) as (evs1 & Hev1 & Hall).
    assert (Hnone : posts_in evs1 = 0%nat)
      by (apply (posts_in_none poller_event); [now intros []|exact Hall]).
    destruct (poll_new_posts_cycle RedditConfig shorten s) as [s1 [[]|e]];
      simpl in Hev1, Hloop; apply (Hquiet s1 _ evs1);
      try assumption; discriminate.
  - pose proof (poll_top_weekly_cycle_untouched RedditConfig ERROR_REPLIES
                  shorten s) as Hframe.
    pose proof (f_equal snd Hframe) as Hloop. simpl in Hloop.
    destruct (poll_top_weekly_cycle_events s) as (evs1 & Hev1 & Hall).
    assert (Hnone : posts_in evs1 = 0%nat)
      by (apply (posts_in_none weekly_event); [now intros []|exact Hall]).
    destruct (poll_top_weekly_cycle RedditConfig ERROR_REPLIES shorten s)
      as [s1 [[]|e]];
      simpl in Hev1, Hloop; apply (Hquiet s1 _ evs1);
      try assumption; discriminate.
Qed.

Lemma run_event_loop_asked_at_most_once schedule :
  forall s0 s,
    asked_at_most_once s0 s ->
    asked_at_most_once s0
      (run_event_loop RedditConfig ERROR_REPLIES shorten schedule s).
Proof.
  induction schedule as [|t schedule IH]; intros s0 s Hs; [exact Hs|].
  change (run_event_loop RedditConfig ERROR_REPLIES shorten (t :: schedule) s)
    with (run_event_loop RedditConfig ERROR_REPLIES shorten schedule
            (step_task RedditConfig ERROR_REPLIES shorten t s)).
  apply IH. now apply step_task_asked_at_most_once.
Qed.

(** X9.  Over the whole run that [init_reddit_polling] starts, whatever
    the schedule and the replies, the token endpoint is asked at most once,
    by [get_tokens]: the periodic refresh ends in an exception before it
    sends anything, and that ends the refresh task. *)
Theorem token_endpoint_asked_at_most_once (w : World) (schedule : list Task) :
  let s0 := fst (init_reddit_polling {| self := Cog_init; world := w |}) in
  let s := run_event_loop RedditConfig ERROR_REPLIES shorten schedule s0 in
  exists evs,
    trace (world s) = trace w ++ evs /\ (posts_in evs <= 1)%nat.
Proof.
  intros s0 s.
  destruct (init_reddit_polling_fresh w) as (_ & _ & _ & _ & Htrace & _).
  fold s0 in Htrace. rewrite <- Htrace.
  assert (Hinv : asked_at_most_once s0 s).
  { apply run_event_loop_asked_at_most_once.
    exists []. split; [symmetry; apply app_nil_r|]. split; [|reflexivity].
    unfold posts_in. simpl. lia. }
  destruct Hinv as (evs & Hev & Hone & _). now exists evs.
Qed.

End TokenRequests.

Example token_endpoint_asked_once_with_channel :
  let s0 := fst (init_reddit_polling
                   {| self := Cog_init;
                      world := example_world
                                 [token_reply "access" "refresh";
                                  head_reply "1000"; listing_reply page_432]
                                 [] |}) in
  let s := run_event_loop example_config example_replies example_shorten
             [RefreshTask; NewPostsTask; RefreshTask; RefreshTask; NewPostsTask] s0 in
  posts_in (trace (world s)) = 1%nat
  /\ refresh_status (loop (world s)) = Failed TypeError
  /\ access_token (self s) = Some "access".
Proof. vm_compute. repeat split. Qed.
